(** * The [gulp test] task of amphtml: build-system/tasks/runtime-test.js

    A shallow embedding of the task that assembles the Karma configuration
    (browser selection, test-file selection, seeded randomisation, ad-type
    enumeration, AMP-config patching) and launches the test runner, together
    with the properties the specification states about it.

    Conventions.
    - JavaScript values that come from the command line ([argv], parsed by
      minimist) are [jsval]s; a number is an IEEE-754 double ([float]).
    - [argv] and [process.env] are finite maps from property names to values;
      a property that is absent reads as [undefined].
    - Effects (the log, [process.env.SERVE_MODE], the files on disk, the
      launch of Karma, [process.exit], a thrown error) are threaded through a
      small state-and-exception monad [Run].
    - Modules of the repository that this file only [require]s
      (karma.conf.js, config.js, prepend-global) and the packages from npm
      (shuffle-seed, glob) are Section variables: every theorem holds for
      whatever they are. *)

From Stdlib Require Import ZArith String Ascii List Bool Lia.
From Corelib Require Import PrimFloat.
From stdpp Require Import base option list gmap strings.

Set Warnings "-register-all".

Local Open Scope string_scope.
Local Open Scope list_scope.

(* ===================================================================== *)
(** ** JavaScript values *)
(* ===================================================================== *)

Module JS.

(** The values minimist can put in [argv], plus plain objects (Karma file
    patterns such as [{pattern: ..., included: false}]). *)
Inductive jsval : Type :=
| JUndefined
| JBool (b : bool)
| JNum (x : float)
| JStr (s : string)
| JArr (xs : list jsval)
| JObj (fields : list (string * jsval)).

(** ECMAScript ToBoolean: [undefined], [false], [+0], [-0], [NaN] and the
    empty string are falsy; every array and object is truthy. *)
Definition truthy (v : jsval) : bool :=
  match v with
  | JUndefined => false
  | JBool b => b
  | JNum x => negb (PrimFloat.eqb x 0%float || PrimFloat.is_nan x)
  | JStr s => negb (String.eqb s "")
  | JArr _ => true
  | JObj _ => true
  end.

(** [o.k] on an object used as a record of optional properties. *)
Definition prop (o : gmap string jsval) (k : string) : jsval :=
  default JUndefined (o !! k).

(** What [xs.concat(v)] appends for the argument [v]: the elements of an
    array, any other value as one element. *)
Definition concat_arg (v : jsval) : list jsval :=
  match v with
  | JArr xs => xs
  | _ => [v]
  end.

(** [xs.indexOf(x)] on an array of strings: the first index holding [x],
    or [-1]. *)
Fixpoint indexOf (xs : list string) (x : string) : Z :=
  match xs with
  | [] => (-1)%Z
  | y :: ys =>
      if String.eqb y x then 0%Z
      else let i := indexOf ys x in
           if (i <? 0)%Z then (-1)%Z else (i + 1)%Z
  end.

(** [xs.splice(start, 1)]: the array left after the call.  A negative
    [start] counts from the end ([max(len + start, 0)]), a [start] past the
    end is clamped to [len]; at most one element is removed. *)
Definition splice1 (xs : list string) (start : Z) : list string :=
  let len := Z.of_nat (length xs) in
  let from := if (start <? 0)%Z then Z.max (len + start) 0
              else Z.min start len in
  take (Z.to_nat from) xs ++ drop (S (Z.to_nat from)) xs.

(** [!process.env.X] is false exactly when the variable is set to a
    non-empty string. *)
Definition env_set (env : gmap string string) (k : string) : bool :=
  match env !! k with
  | Some s => negb (String.eqb s "")
  | None => false
  end.

End JS.
Export JS.

(* ===================================================================== *)
(** ** Node's [path] module on directory entries *)
(* ===================================================================== *)

Module Path.

(** The suffix of [s] that starts at its last ['.'], if it has one. *)
Fixpoint from_last_dot (s : string) : option string :=
  match s with
  | EmptyString => None
  | String c rest =>
      match from_last_dot rest with
      | Some e => Some e
      | None => if Ascii.eqb c "." then Some s else None
      end
  end.

(** [path.extname(name)] for a name without ['/'] (what [fs.readdirSync]
    returns): the text from the last dot on; empty when there is no dot,
    when the only dot is the first character, and for [".."]. *)
Definition extname (name : string) : string :=
  match from_last_dot name with
  | None => ""
  | Some e => if String.eqb e name || String.eqb name ".." then "" else e
  end.

(** [s] without its ending [suffix], when it ends with it. *)
Fixpoint strip_suffix (suffix s : string) : option string :=
  if String.eqb s suffix then Some ""
  else match s with
       | EmptyString => None
       | String c rest => String c <$> strip_suffix suffix rest
       end.

(** [path.basename(name, ext)] for a name without ['/']. *)
Definition basename (name ext : string) : string :=
  if String.eqb ext "" then name
  else if String.eqb ext name then ""
  else default name (strip_suffix ext name).

(** [name[0]]: the first character, [undefined] for the empty string. *)
Definition first_char (name : string) : option ascii :=
  match name with
  | EmptyString => None
  | String c _ => Some c
  end.

End Path.

(* ===================================================================== *)
(** ** Effects: the log, the disk, the process *)
(* ===================================================================== *)

Inductive colour : Type := Green | Yellow | Cyan | Red.

(** One argument of a styling call: a string literal, a value, an exit code,
    or a template literal [`prefix${v}`]. *)
Inductive arg : Type :=
| Lit (s : string)
| Val (v : jsval)
| Code (n : Z)
| Template (prefix : string) (v : jsval).

(** [cyan('a', b)] is [(Cyan, [Lit "a"; Val b])]. *)
Definition styled : Type := colour * list arg.

Inductive entry : Type :=
| Log (parts : list styled)          (* fancy-log's [log(...)] *)
| ConsoleInfo (s : string).          (* [console.info(s)] *)

(** Karma's configuration object, with the fields this task reads or writes. *)
Record AmpClient : Type := mkAmpClient {
  useCompiledJs : bool;
  amp_saucelabs : bool;
  adTypes : list jsval;
  mochaTimeout : jsval;
}.

Record Client : Type := mkClient {
  captureConsole : jsval;
  mocha : gmap string jsval;
  amp : option AmpClient;
}.

Record KarmaConfig : Type := mkKarma {
  browsers : list string;
  reporters : list string;
  singleRun : jsval;
  files : list jsval;
  client : Client;
  browserify_transform : list string;
  preprocessors : gmap string (list string);
  coverageReporter : bool;   (* whether [c.coverageReporter] has been set *)
}.

Definition set_browsers (bs : list string) (c : KarmaConfig) : KarmaConfig :=
  mkKarma bs (reporters c) (singleRun c) (files c) (client c)
          (browserify_transform c) (preprocessors c) (coverageReporter c).
Definition set_reporters (rs : list string) (c : KarmaConfig) : KarmaConfig :=
  mkKarma (browsers c) rs (singleRun c) (files c) (client c)
          (browserify_transform c) (preprocessors c) (coverageReporter c).
Definition set_singleRun (v : jsval) (c : KarmaConfig) : KarmaConfig :=
  mkKarma (browsers c) (reporters c) v (files c) (client c)
          (browserify_transform c) (preprocessors c) (coverageReporter c).
Definition set_files (fs : list jsval) (c : KarmaConfig) : KarmaConfig :=
  mkKarma (browsers c) (reporters c) (singleRun c) fs (client c)
          (browserify_transform c) (preprocessors c) (coverageReporter c).
Definition set_client (cl : Client) (c : KarmaConfig) : KarmaConfig :=
  mkKarma (browsers c) (reporters c) (singleRun c) (files c) cl
          (browserify_transform c) (preprocessors c) (coverageReporter c).
Definition set_coverage (c : KarmaConfig) : KarmaConfig :=
  let push k pre := match pre !! k with
                    | Some l => <[k := l ++ ["coverage"]]> pre
                    | None => pre
                    end in
  mkKarma (browsers c) (reporters c ++ ["progress"; "coverage"]) (singleRun c)
          (files c) (client c)
          (browserify_transform c ++ ["browserify-istanbul"])
          (push "extensions/**/*.js" (push "src/**/*.js" (preprocessors c)))
          true.

Definition set_captureConsole (v : jsval) (cl : Client) : Client :=
  mkClient v (mocha cl) (amp cl).
Definition set_mocha (m : gmap string jsval) (cl : Client) : Client :=
  mkClient (captureConsole cl) m (amp cl).
Definition set_amp (a : AmpClient) (cl : Client) : Client :=
  mkClient (captureConsole cl) (mocha cl) (Some a).

(** What the task can observe and change outside its own variables. *)
Record world : Type := mkWorld {
  w_log : list entry;                 (* lines printed so far, oldest first *)
  w_disk : gmap string string;        (* path -> contents *)
  w_serve_mode : option string;       (* process.env.SERVE_MODE *)
  w_server : bool;                    (* the fake-response server is up *)
  w_karma : option KarmaConfig;       (* the config Karma was started with *)
}.

(** How a computation ends: normally, by [process.exit(code)] (no [code]
    when the call has no argument), or by a thrown error / rejected promise. *)
Inductive res (A : Type) : Type :=
| Ret (a : A) (w : world)
| Exit (code : option Z) (w : world)
| Thrown (msg : string) (w : world).
Arguments Ret {A} a w.
Arguments Exit {A} code w.
Arguments Thrown {A} msg w.

Definition Run (A : Type) : Type := world -> res A.

Definition ret {A} (a : A) : Run A := fun w => Ret a w.

Definition bind {A B} (m : Run A) (k : A -> Run B) : Run B :=
  fun w => match m w with
           | Ret a w' => k a w'
           | Exit code w' => Exit code w'
           | Thrown msg w' => Thrown msg w'
           end.

Declare Scope run_scope.
Delimit Scope run_scope with run.
Notation "x <- m ;; k" := (bind m (fun x => k))
  (at level 100, m at next level, right associativity) : run_scope.
Notation "m ;; k" := (bind m (fun _ => k))
  (at level 100, right associativity) : run_scope.
Local Open Scope run_scope.

Definition emit (e : entry) : Run unit :=
  fun w => Ret tt (mkWorld (w_log w ++ [e]) (w_disk w) (w_serve_mode w)
                           (w_server w) (w_karma w)).
Definition log (parts : list styled) : Run unit := emit (Log parts).

Definition throw {A} (msg : string) : Run A := fun w => Thrown msg w.
Definition process_exit {A} (code : option Z) : Run A := fun w => Exit code w.

Definition when (b : bool) (m : Run unit) : Run unit :=
  if b then m else ret tt.

Definition set_serve_mode (m : string) : Run unit :=
  fun w => Ret tt (mkWorld (w_log w) (w_disk w) (Some m) (w_server w) (w_karma w)).
Definition start_server : Run unit :=
  fun w => Ret tt (mkWorld (w_log w) (w_disk w) (w_serve_mode w) true (w_karma w)).
Definition start_karma (c : KarmaConfig) : Run unit :=
  fun w => Ret tt (mkWorld (w_log w) (w_disk w) (w_serve_mode w) (w_server w) (Some c)).
Definition existsSync (p : string) : Run bool :=
  fun w => Ret (bool_decide (is_Some (w_disk w !! p))) w.

(** The status the shell sees after [process.exit(code)]: Node uses the
    success status 0 when the call gives no code ([process.exitCode] is
    never assigned by this task), and the operating system keeps the low
    eight bits of a code: 256 ends as 0, -1 as 255. *)
Definition exit_status (code : option Z) : Z := (default 0 code mod 256)%Z.

(* ===================================================================== *)
(** ** Inputs of one invocation *)
(* ===================================================================== *)

(** build-system/config.js, as far as this task reads it: arrays of Karma
    file patterns (strings or pattern objects); the two lists handed to
    [glob.sync] hold glob strings.  [simpleTestPath] is passed as the
    argument of [concat], so it may be an array or a single pattern. *)
Record Config : Type := mkConfig {
  chaiAsPromised : list jsval;
  commonTestPaths : list jsval;
  integrationTestPaths : list jsval;
  unitTestPaths : list jsval;
  unitTestOnSaucePaths : list jsval;
  a4aTestPaths : list string;
  basicTestPaths : list string;
  testPaths : list jsval;
  simpleTestPath : jsval;
}.

(** Everything one run of the task reads from outside: the parsed command
    line, the environment, the value [Math.random()] returns if it is called,
    the listing of [./ads/] ([None]: the directory cannot be read), and what
    [glob.sync] finds for a pattern. *)
Record invocation : Type := mkInvocation {
  argv : gmap string jsval;
  env : gmap string string;
  math_random : float;
  readdir_ads : option (list string);
  glob_sync : string -> list string;
}.

Definition flag (i : invocation) (k : string) : bool := truthy (prop (argv i) k).

(** [const ampConfig = (argv.config === 'canary') ? 'canary' : 'prod';] *)
Definition ampConfig (i : invocation) : string :=
  match prop (argv i) "config" with
  | JStr s => if String.eqb s "canary" then "canary" else "prod"
  | _ => "prod"
  end.

(** [const preTestTasks = argv.nobuild ? [] : (argv.unit ? ['css'] : ['build']);] *)
Definition preTestTasks (i : invocation) : list string :=
  if flag i "nobuild" then [] else if flag i "unit" then ["css"] else ["build"].

(* ===================================================================== *)
(** ** getAdTypes *)
(* ===================================================================== *)

Module AdTypes.
Import Path.

(** The own properties of the object literal [namingExceptions]. *)
Definition namingExceptions : gmap string (list string) :=
  list_to_map
    [ ("adblade", ["adblade"; "industrybrains"]);
      ("mantis", ["mantis-display"; "mantis-recommend"]);
      ("weborama", ["weborama-display"]) ].

(** An object literal inherits from [Object.prototype]; a property read
    [o[k]] that finds no own property [k] continues there.  What is found
    is a function (with its [length], the number of declared parameters)
    or, for [__proto__], the prototype object itself. *)
Inductive inherited : Type :=
| InheritedFunction (arity : nat)
| InheritedObject.

Definition Object_prototype : gmap string inherited :=
  list_to_map
    [ ("constructor", InheritedFunction 1);
      ("hasOwnProperty", InheritedFunction 1);
      ("isPrototypeOf", InheritedFunction 1);
      ("propertyIsEnumerable", InheritedFunction 1);
      ("toLocaleString", InheritedFunction 0);
      ("toString", InheritedFunction 0);
      ("valueOf", InheritedFunction 0);
      ("__defineGetter__", InheritedFunction 2);
      ("__defineSetter__", InheritedFunction 2);
      ("__lookupGetter__", InheritedFunction 1);
      ("__lookupSetter__", InheritedFunction 1);
      ("__proto__", InheritedObject) ].

(** The value of [namingExceptions[adType]]. *)
Inductive lookup_result : Type :=
| Own (types : list string)
| Inherited (v : inherited)
| Undefined.

Definition lookup_exception (adType : string) : lookup_result :=
  match namingExceptions !! adType with
  | Some types => Own types
  | None =>
      match Object_prototype !! adType with
      | Some v => Inherited v
      | None => Undefined
      end
  end.

(** What the body of the [if (expanded) ... else ...] pushes.  An array or
    a function is truthy and the inner loop pushes [expanded[j]] for
    [j < expanded.length]: the entries of an own array; [undefined],
    [length] times, for a function; nothing for an object without
    [length].  Only [undefined] takes the [else] branch. *)
Definition pushed (adType : string) : list jsval :=
  match lookup_exception adType with
  | Own types => JStr <$> types
  | Inherited (InheritedFunction n) => replicate n JUndefined
  | Inherited InheritedObject => []
  | Undefined => [JStr adType]
  end.

(** The test of the outer [if]: a [.js] file that is neither private
    (leading underscore) nor [ads.extern.js]. *)
Definition scanned (file : string) : bool :=
  String.eqb (extname file) ".js"
  && negb (bool_decide (first_char file = Some "_"%char))
  && negb (String.eqb file "ads.extern.js").

(** The [for] loop over [files], [adTypes] being the array built so far. *)
Fixpoint scan (files : list string) (adTypes : list jsval) : list jsval :=
  match files with
  | [] => adTypes
  | file :: rest =>
      if scanned file
      then scan rest (adTypes ++ pushed (basename file ".js"))
      else scan rest adTypes
  end.

(** [getAdTypes()], given the listing [fs.readdirSync('./ads/')] returned. *)
Definition getAdTypes (files : list string) : list jsval :=
  scan files [JStr "adsense"; JStr "doubleclick"].

(** What one directory entry adds to the list. *)
Definition contribution (file : string) : list jsval :=
  if scanned file then pushed (basename file ".js") else [].

(** What the exception table says for a base name: its entry, or the name
    itself. *)
Definition table_types (adType : string) : list string :=
  default [adType] (namingExceptions !! adType).

End AdTypes.
Export AdTypes.

(* ===================================================================== *)
(** ** getConfig, applyAmpConfig, runTests *)
(* ===================================================================== *)

Definition saucelabs_browsers : list string :=
  [ "SL_Chrome_android"; "SL_Chrome_latest"; "SL_Chrome_45";
    "SL_Firefox_latest"; "SL_Safari_latest"; "SL_Safari_10"; "SL_Safari_9";
    "SL_iOS_latest"; "SL_iOS_10_0"; "SL_iOS_9_1"; "SL_Edge_latest";
    "SL_IE_11" ].

Definition saucelabs_lite_browsers : list string := [ "SL_Safari_latest" ].

Definition saucelabs_reporters : list string :=
  [ "super-dots"; "saucelabs"; "karmaSimpleReporter" ].

Definition init_tests : string := "test/_init_tests.js".

(* ===================================================================== *)
(** ** A concrete repository and concrete runs *)
(* ===================================================================== *)

(** Stand-ins for the modules that are not part of this file, used to run
    the task on concrete command lines. *)
Module Sample.

Definition karma : KarmaConfig :=
  mkKarma ["Chrome_no_extensions"] ["super-dots"; "karmaSimpleReporter"]
          (JBool true) []
          (mkClient (JBool false) {[ "timeout" := JNum 10000%float ]} None)
          ["babelify"] {[ "src/**/*.js" := ["browserify"] ]} false.

Definition config : Config :=
  mkConfig
    [JStr "test/chai-as-promised/chai-as-promised.js"]
    [JStr "test/_init_tests.js";
     JObj [("pattern", JStr "test/fixtures/*.html"); ("included", JBool false)]]
    [JStr "test/integration/**/*.js"]
    [JStr "test/functional/**/*.js"]
    [JStr "test/functional/test-error.js"]
    ["extensions/amp-a4a/**/test/**/*.js"]
    ["test/**/*.js"]
    [JStr "test/**/*.js"; JStr "extensions/**/test/**/*.js"]
    (JArr [JStr "test/simple-test.js"]).

(** An arbitrary seed-sensitive permutation, to run the theorems that hold
    for every shuffle: reverse for a numeric seed below one half, keep the
    order otherwise.  These are not the orders of the shuffle-seed
    package; [shuffle_seed] below records some of those. *)
Definition shuffle (xs : list string) (seed : jsval) : list string :=
  match seed with
  | JNum x => if PrimFloat.ltb x 0.5%float then rev xs else xs
  | _ => xs
  end.

Definition write (p contents : string) : Run unit :=
  fun w => Ret tt (mkWorld (w_log w) (<[p := contents]> (w_disk w))
                           (w_serve_mode w) (w_server w) (w_karma w)).

Definition removeConfig (target : string) : Run unit :=
  write target "runtime".

Definition applyConfig (cfg target configFile : string)
                       (localDev localBranch : bool) : Run unit :=
  write target (cfg +:+ " from " +:+ configFile +:+ ";runtime").

(** The test files on disk. *)
Definition glob (pattern : string) : list string :=
  if String.eqb pattern "test/**/*.js"
  then ["test/_init_tests.js"; "test/functional/test-a.js";
        "test/functional/test-b.js"]
  else if String.eqb pattern "extensions/amp-a4a/**/test/**/*.js"
  then ["extensions/amp-a4a/0.1/test/test-a4a.js";
        "extensions/amp-a4a/0.1/test/test-signature.js"]
  else [].

Definition ads : list string :=
  ["_config.js"; "a9.js"; "adblade.js"; "ads.extern.js"; "README.md";
   "weborama.js"].

Definition sauce_env : gmap string string :=
  {[ "SAUCE_USERNAME" := "amp"; "SAUCE_ACCESS_KEY" := "secret" ]}.

(** A run with the given command line and environment; [Math.random()]
    would return [r]. *)
Definition run (args : list (string * jsval)) (e : gmap string string)
               (r : float) : invocation :=
  mkInvocation (list_to_map args) e r (Some ads) glob.

Definition world0 : world :=
  mkWorld [] {[ "dist/v0.js" := "runtime" ]} None false None.

(** A world after [gulp build]: both runtime files are on the disk. *)
Definition world_built : world :=
  mkWorld [] {[ "dist/amp.js" := "runtime"; "dist/v0.js" := "runtime" ]}
          None false None.

(** [gulp test --randomize --seed=0], [Math.random()] returning [r]. *)
Definition seed0 (r : float) : invocation :=
  run [("randomize", JBool true); ("seed", JNum 0%float)] ∅ r.

(** [gulp test --randomize --seed=7]. *)
Definition seed7 (r : float) : invocation :=
  run [("randomize", JBool true); ("seed", JNum 7%float)] ∅ r.

(** [gulp test --a4a --seed=7]: the a4a globs do not match the init file. *)
Definition a4a_seed7 : invocation :=
  run [("a4a", JBool true); ("seed", JNum 7%float)] ∅ 0.5%float.

(** [gulp test --saucelabs --unit], credentials set. *)
Definition lab_unit : invocation :=
  run [("saucelabs", JBool true); ("unit", JBool true)] sauce_env 0.5%float.

(** [gulp test --saucelabs_lite --unit], credentials set. *)
Definition lite_unit : invocation :=
  run [("saucelabs_lite", JBool true); ("unit", JBool true)] sauce_env
      0.5%float.

(** [gulp test --saucelabs_lite], SAUCE_ACCESS_KEY not set. *)
Definition lite_no_key : invocation :=
  run [("saucelabs_lite", JBool true)] {[ "SAUCE_USERNAME" := "amp" ]}
      0.5%float.

(** [gulp test --firefox --saucelabs], no credentials. *)
Definition firefox_lab : invocation :=
  run [("firefox", JBool true); ("saucelabs", JBool true)] ∅ 0.5%float.

(** [gulp test --config=canary]. *)
Definition canary : invocation :=
  run [("config", JStr "canary")] ∅ 0.5%float.

(** The text [cyan(v)] contributes to a string it is appended to. *)
Definition cyan_str (v : jsval) : string :=
  match v with
  | JStr t => "<" +:+ t +:+ ">"
  | JNum _ => "<number>"
  | JBool true => "<true>"
  | JBool false => "<false>"
  | JUndefined => "<undefined>"
  | _ => "<object>"
  end.

(** The text of an inherited function or object. *)
Definition inherited_str (v : AdTypes.inherited) : string :=
  "[native code]".

(** [Object.keys(argv)] for [gulp test --randomize --seed=0]. *)
Definition seed0_keys : list string := ["_"; "randomize"; "seed"].

(** [gulp test --nohelp --unit]. *)
Definition quiet_unit : invocation :=
  run [("nohelp", JBool true); ("unit", JBool true)] ∅ 0.5%float.

(** [gulp test --saucelabs --integration --files=test/functional/test-a.js
    --testnames --coverage --grep=viewer --compiled], credentials set. *)
Definition lab_files : invocation :=
  run [("saucelabs", JBool true); ("integration", JBool true);
       ("files", JStr "test/functional/test-a.js");
       ("testnames", JBool true); ("coverage", JBool true);
       ("grep", JStr "viewer"); ("compiled", JBool true)]
      sauce_env 0.5%float.

(** [gulp test --glob --seed=3]. *)
Definition glob_only (r : float) : invocation :=
  run [("glob", JBool true); ("seed", JNum 3%float)] ∅ r.

(** A [removeConfig] that rejects. *)
Definition removeConfig_fails (target : string) : Run unit :=
  throw ("cannot read " +:+ target).

(** A checkout that has not been built: no runtime file on the disk. *)
Definition world_clean : world := mkWorld [] ∅ None false None.

(** [gulp test --glob]. *)
Definition glob_plain : invocation :=
  run [("glob", JBool true)] ∅ 0.75%float.

(** [gulp test --glob] in a checkout without test/_init_tests.js.  Nothing
    shuffles without --randomize or --a4a. *)
Definition glob_no_init : invocation :=
  mkInvocation (list_to_map [("glob", JBool true)]) ∅ 0.5%float (Some ads)
               (fun pattern =>
                  if String.eqb pattern "test/**/*.js"
                  then ["test/functional/test-a.js";
                        "test/functional/test-b.js"]
                  else []).

(** [gulp test --glob] in a checkout whose globs match no file. *)
Definition glob_nothing : invocation :=
  mkInvocation (list_to_map [("glob", JBool true)]) ∅ 0.5%float (Some ads)
               (fun _ => []).

(** The orders the shuffle-seed package (on seedrandom's ARC4 generator)
    returns for a list of three elements with the seeds 0.25 and 0.375, and
    for a list of two with the seed 7.  Only these calls are recorded; any
    other list or seed is left in order here. *)
Definition shuffle_seed (xs : list string) (seed : jsval) : list string :=
  match xs, seed with
  | [x0; x1; x2], JNum s =>
      if PrimFloat.eqb s 0.25%float then [x1; x2; x0]
      else if PrimFloat.eqb s 0.375%float then [x2; x1; x0]
      else xs
  | [x0; x1], JNum s =>
      if PrimFloat.eqb s 7%float then [x1; x0] else xs
  | _, _ => xs
  end.

End Sample.

Section Task.

(** [require('./karma.conf')] and [require('../config')]. *)
Variable karmaDefault : KarmaConfig.
Variable config : Config.

(** [shuffleSeed.shuffle(array, seed)] of the shuffle-seed package: some
    function of the array and the seed. *)
Variable shuffle : list string -> jsval -> list string.

(** [removeConfig] and [applyConfig] of ./prepend-global/index.js; both
    return a promise, here a computation that may fail. *)
Variable removeConfig : string -> Run unit.
Variable applyConfig : string -> string -> string -> bool -> bool -> Run unit.

(** [getConfig()] (lines 48-93). [Object.assign({}, karmaDefault, {...})]
    is [karmaDefault] with the listed fields replaced. *)
Definition getConfig (i : invocation) : Run KarmaConfig :=
  if flag i "safari" then ret (set_browsers ["Safari"] karmaDefault)
  else if flag i "firefox" then ret (set_browsers ["Firefox"] karmaDefault)
  else if flag i "edge" then ret (set_browsers ["Edge"] karmaDefault)
  else if flag i "ie" then ret (set_browsers ["IE"] karmaDefault)
  else if flag i "saucelabs" || flag i "saucelabs_lite" then
    if negb (env_set (env i) "SAUCE_USERNAME")
    then throw "Missing SAUCE_USERNAME Env variable"
    else if negb (env_set (env i) "SAUCE_ACCESS_KEY")
    then throw "Missing SAUCE_ACCESS_KEY Env variable"
    else ret (set_browsers
                (if flag i "saucelabs" then saucelabs_browsers
                 else saucelabs_lite_browsers)
                (set_reporters saucelabs_reporters karmaDefault))
  else ret karmaDefault.

(** [applyAmpConfig(targetFile)] (lines 184-196). *)
Definition applyAmpConfig (i : invocation) (targetFile : string) : Run unit :=
  let configFile :=
    "build-system/global-configs/" +:+ ampConfig i +:+ "-config.json" in
  ex <- existsSync targetFile ;;
  if ex : bool then
    (removeConfig targetFile ;;
     applyConfig (ampConfig i) targetFile configFile true true)
  else ret tt.

(** The seed of a randomised run: [argv.seed || Math.random()]. *)
Definition seed_used (i : invocation) : jsval :=
  if truthy (prop (argv i) "seed") then prop (argv i) "seed"
  else JNum (math_random i).

(** The two lines logged before shuffling (lines 256-263). *)
Definition log_seed (seed : jsval) : Run unit :=
  log [ (Yellow, [Lit "Randomizing:"]);
        (Cyan, [Lit "Seeding with value"; Val seed]) ] ;;
  log [ (Yellow, [Lit "To rerun same ordering, append"]);
        (Cyan, [Template "--seed=" seed]);
        (Yellow, [Lit "to your invocation of"]);
        (Cyan, [Lit "gulp test"]) ].

(** Lines 247-252: the globs of the chosen suite, expanded in order. *)
Definition globbed (i : invocation) : list string :=
  let testPaths :=
    if flag i "a4a" then a4aTestPaths config else basicTestPaths config in
  flat_map (glob_sync i) testPaths.

(** Lines 254-265: shuffle when [--randomize] or [--a4a] is given. *)
Definition ordered (i : invocation) : Run (list string) :=
  if flag i "randomize" || flag i "a4a" then
    (log_seed (seed_used i) ;;
     ret (shuffle (globbed i) (seed_used i)))
  else ret (globbed i).

(** Lines 230-277: the assignment of [c.files] (and of [c.reporters] for
    explicit files). *)
Definition selectFiles (i : invocation) (c : KarmaConfig) : Run KarmaConfig :=
  let c := set_files (if flag i "saucelabs" then []
                      else chaiAsPromised config) c in
  c <- (if flag i "files" then
          let c := set_files (files c ++ commonTestPaths config
                              ++ concat_arg (prop (argv i) "files")) c in
          ret (if negb (flag i "saucelabs") && negb (flag i "saucelabs_lite")
               then set_reporters ["mocha"] c else c)
        else if flag i "integration" then
          ret (set_files (files c ++ integrationTestPaths config) c)
        else if flag i "unit" then
          if flag i "saucelabs_lite"
          then ret (set_files (files c ++ unitTestOnSaucePaths config) c)
          else ret (set_files (files c ++ unitTestPaths config) c)
        else if flag i "randomize" || flag i "glob" || flag i "a4a" then
          (testFiles <- ordered i ;;
           let testFiles :=
             splice1 testFiles (indexOf testFiles init_tests) in
           ret (set_files
                  (files c ++ (commonTestPaths config ++ (JStr <$> testFiles)))
                  c))
        else ret (set_files (files c ++ testPaths config) c)) ;;
  ret (if flag i "saucelabs" || flag i "saucelabs_lite"
       then set_files (files c ++ concat_arg (simpleTestPath config)) c
       else c).

(** [fs.readdirSync('./ads/')] inside [getAdTypes()]: throws when the
    directory cannot be read. *)
Definition readdirSync_ads (i : invocation) : Run (list string) :=
  match readdir_ads i with
  | Some names => ret names
  | None => throw "ENOENT: no such file or directory, scandir './ads/'"
  end.

(** [runTests()] (lines 201-382), up to the start of Karma. *)
Definition runTests (i : invocation) : Run unit :=
  when (negb (flag i "integration") && env_set (env i) "AMPSAUCE_REPO")
       (emit (ConsoleInfo "Deactivated for ampsauce repo")) ;;
  c <- getConfig i ;;
  let c := if flag i "watch" || flag i "w"
           then set_singleRun (JBool false) c else c in
  let c := if flag i "verbose" || flag i "v"
           then set_client (set_captureConsole (JBool true) (client c)) c
           else c in
  let c := if flag i "testnames" then set_reporters ["mocha"] c else c in
  when (flag i "saucelabs" && negb (flag i "integration"))
       (log [ (Red, [Lit "Only integration tests may be run on the full set of Sauce Labs browsers"]) ] ;;
        log [ (Red, [Lit "Use"]); (Cyan, [Lit "--saucelabs"]);
              (Red, [Lit "with"]); (Cyan, [Lit "--integration"]) ] ;;
        process_exit None) ;;
  c <- selectFiles i c ;;
  names <- readdirSync_ads i ;;
  let c := set_client
             (set_amp (mkAmpClient
                         (flag i "compiled")
                         (flag i "saucelabs" || flag i "saucelabs_lite")
                         (getAdTypes names)
                         (prop (mocha (client c)) "timeout"))
                      (client c)) c in
  set_serve_mode (if flag i "compiled" then "compiled" else "default") ;;
  let c := if flag i "grep"
           then set_client
                  (set_mocha {[ "grep" := prop (argv i) "grep" ]} (client c)) c
           else c in
  c <- (if flag i "coverage" then
          (log [ (Cyan, [Lit "Including code coverage tests"]) ] ;;
           ret (set_coverage c))
        else ret c) ;;
  start_server ;;
  log [ (Yellow, [Lit "Started test responses server on localhost:31862"]) ] ;;
  start_karma c.

(** The callback Karma calls with its exit code (lines 348-357):
    [server.emit('kill')] logs the shutdown and schedules [process.exit()]
    for the next tick; a non-zero code exits at once with that code. *)
Definition karmaDone (exitCode : Z) : Run unit :=
  log [ (Yellow, [Lit "Shutting down test responses server on localhost:31862"]) ] ;;
  if (exitCode =? 0)%Z then process_exit None
  else
    (log [ (Red, [Lit "ERROR:"]);
           (Yellow, [Lit "Karma test failed with exit code"; Code exitCode]) ] ;;
     process_exit (Some exitCode)).

(* ===================================================================== *)
(** ** The selection of the file list, as the specification words it *)
(* ===================================================================== *)

(** The layer of configuration that decides what [getConfig] returns. *)
Inductive layer : Type :=
| BrowserOverride (browser : string)
| RemoteLab
| DefaultConfig.

Definition browser_override (i : invocation) : option string :=
  if flag i "safari" then Some "Safari"
  else if flag i "firefox" then Some "Firefox"
  else if flag i "edge" then Some "Edge"
  else if flag i "ie" then Some "IE"
  else None.

Definition active_layer (i : invocation) : layer :=
  match browser_override i with
  | Some b => BrowserOverride b
  | None => if flag i "saucelabs" || flag i "saucelabs_lite"
            then RemoteLab else DefaultConfig
  end.

(** The five selection modes, in the order of their precedence. *)
Inductive mode : Type :=
| ExplicitFiles
| Integration
| Unit (lab_safe : bool)
| Randomized
| DefaultSuite.

Definition selection_mode (i : invocation) : mode :=
  if flag i "files" then ExplicitFiles
  else if flag i "integration" then Integration
  else if flag i "unit" then Unit (flag i "saucelabs_lite")
  else if flag i "randomize" || flag i "glob" || flag i "a4a" then Randomized
  else DefaultSuite.

(** The order of the globbed files after the optional shuffle. *)
Definition ordering (i : invocation) : list string :=
  if flag i "randomize" || flag i "a4a"
  then shuffle (globbed i) (seed_used i)
  else globbed i.

(** The test files a shuffle with the given seed leaves for Karma: the
    shuffled list after the splice of line 267. *)
Definition tests_for_seed (i : invocation) (seed : jsval) : list string :=
  splice1 (shuffle (globbed i) seed)
          (indexOf (shuffle (globbed i) seed) init_tests).

(** The files a mode contributes. *)
Definition mode_files (i : invocation) (m : mode) : list jsval :=
  match m with
  | ExplicitFiles => commonTestPaths config ++ concat_arg (prop (argv i) "files")
  | Integration => integrationTestPaths config
  | Unit true => unitTestOnSaucePaths config
  | Unit false => unitTestPaths config
  | Randomized =>
      commonTestPaths config
      ++ (JStr <$> splice1 (ordering i) (indexOf (ordering i) init_tests))
  | DefaultSuite => testPaths config
  end.

(** What precedes and what follows the mode's files. *)
Definition base_files (i : invocation) : list jsval :=
  if flag i "saucelabs" then [] else chaiAsPromised config.

Definition smoke_files (i : invocation) : list jsval :=
  if flag i "saucelabs" || flag i "saucelabs_lite"
  then concat_arg (simpleTestPath config) else [].

Definition final_files (i : invocation) : list jsval :=
  base_files i ++ mode_files i (selection_mode i) ++ smoke_files i.

(** The log lines of the selection step: the seed, when it shuffles. *)
Definition seed_log (i : invocation) : list entry :=
  match selection_mode i with
  | Randomized =>
      if flag i "randomize" || flag i "a4a" then
        [ Log [ (Yellow, [Lit "Randomizing:"]);
                (Cyan, [Lit "Seeding with value"; Val (seed_used i)]) ];
          Log [ (Yellow, [Lit "To rerun same ordering, append"]);
                (Cyan, [Template "--seed=" (seed_used i)]);
                (Yellow, [Lit "to your invocation of"]);
                (Cyan, [Lit "gulp test"]) ] ]
      else []
  | _ => []
  end.

Definition add_log (es : list entry) (w : world) : world :=
  mkWorld (w_log w ++ es) (w_disk w) (w_serve_mode w) (w_server w) (w_karma w).

(** The note for the ampsauce repository (lines 202-204). *)
Definition ampsauce_note (i : invocation) : list entry :=
  if negb (flag i "integration") && env_set (env i) "AMPSAUCE_REPO"
  then [ConsoleInfo "Deactivated for ampsauce repo"] else [].

Definition lab_refusal : list entry :=
  [ Log [ (Red, [Lit "Only integration tests may be run on the full set of Sauce Labs browsers"]) ];
    Log [ (Red, [Lit "Use"]); (Cyan, [Lit "--saucelabs"]);
          (Red, [Lit "with"]); (Cyan, [Lit "--integration"]) ] ].

(** The lines about coverage (line 300) and the server (lines 343-344). *)
Definition coverage_note (i : invocation) : list entry :=
  if flag i "coverage"
  then [ Log [ (Cyan, [Lit "Including code coverage tests"]) ] ] else [].

Definition server_note : list entry :=
  [ Log [ (Yellow, [Lit "Started test responses server on localhost:31862"]) ] ].

(** The line that tells how to repeat a randomised run (lines 259-263). *)
Definition rerun_hint (seed : jsval) : entry :=
  Log [ (Yellow, [Lit "To rerun same ordering, append"]);
        (Cyan, [Template "--seed=" seed]);
        (Yellow, [Lit "to your invocation of"]);
        (Cyan, [Lit "gulp test"]) ].

(* ===================================================================== *)
(** ** printArgvMessages and the [test] task *)
(* ===================================================================== *)

(** The text that [cyan(v)] adds to a string built by [+] (ansi-colors), and
    the text of a value inherited from [Object.prototype]. *)
Variable cyan_str : jsval -> string.
Variable inherited_str : inherited -> string.

(** A double quote, as a one-character string. *)
Definition dquote : string := String (Ascii.ascii_of_nat 34) EmptyString.

(** The own properties of the object literal [argvMessages] (lines
    132-155); the strings are built when the function is entered. *)
Definition argvMessages (i : invocation) : gmap string string :=
  list_to_map
    [ ("safari", "Running tests on Safari.");
      ("firefox", "Running tests on Firefox.");
      ("ie", "Running tests on IE.");
      ("edge", "Running tests on Edge.");
      ("saucelabs", "Running integration tests on Sauce Labs browsers.");
      ("saucelabs_lite", "Running tests on a subset of Sauce Labs browsers.");
      ("nobuild", "Skipping build.");
      ("watch", "Enabling watch mode. Editing and saving a file will cause the"
                +:+ " tests for that file to be re-run in the same browser instance.");
      ("verbose", "Enabling verbose mode. Expect lots of output!");
      ("testnames", "Listing the names of all tests being run.");
      ("files", "Running tests in the file(s): "
                +:+ cyan_str (prop (argv i) "files"));
      ("integration", "Running only the integration tests. Requires "
                      +:+ cyan_str (JStr "gulp build")
                      +:+ " to have been run first.");
      ("unit", "Running only the unit tests. Requires "
               +:+ cyan_str (JStr "gulp css") +:+ " to have been run first.");
      ("randomize", "Randomizing the order in which tests are run.");
      ("a4a", "Running only A4A tests.");
      ("seed", "Randomizing test order with seed "
               +:+ cyan_str (prop (argv i) "seed") +:+ ".");
      ("compiled", "Running tests against minified code.");
      ("grep", "Only running tests that match the pattern " +:+ dquote
               +:+ cyan_str (prop (argv i) "grep") +:+ dquote +:+ ".") ].

(** The value of [argvMessages[arg]]: an own string, or what the object
    literal inherits from [Object.prototype]. *)
Inductive message : Type :=
| OwnMessage (text : string)
| InheritedValue (v : inherited).

Definition argvMessage (i : invocation) (arg : string) : option message :=
  match argvMessages i !! arg with
  | Some text => Some (OwnMessage text)
  | None => InheritedValue <$> Object_prototype !! arg
  end.

(** [if (message)]: a string is truthy unless empty, a function or an
    object always. *)
Definition message_truthy (m : message) : bool :=
  match m with
  | OwnMessage text => negb (String.eqb text "")
  | InheritedValue _ => true
  end.

Definition message_text (m : message) : string :=
  match m with
  | OwnMessage text => text
  | InheritedValue v => inherited_str v
  end.

(** The line [log(yellow('--' + arg + ':'), green(message))]. *)
Definition flag_entry (arg : string) (m : message) : entry :=
  Log [ (Yellow, [Lit ("--" +:+ arg +:+ ":")]);
        (Green, [Lit (message_text m)]) ].

(** The body of the [forEach] callback (lines 169-174). *)
Definition print_flag (i : invocation) (arg : string) : Run unit :=
  match argvMessage i arg with
  | Some m => when (message_truthy m) (emit (flag_entry arg m))
  | None => ret tt
  end.

(** [keys.forEach(f)]. *)
Fixpoint forEach (f : string -> Run unit) (keys : list string) : Run unit :=
  match keys with
  | [] => ret tt
  | k :: rest => f k ;; forEach f rest
  end.

(** [printArgvMessages()] (lines 131-176).  [keys] is [Object.keys(argv)],
    the flags in the order of the command line, which the map [argv] does
    not record. *)
Definition printArgvMessages (i : invocation) (keys : list string) : Run unit :=
  when (negb (env_set (env i) "TRAVIS"))
       (log [ (Green, [Lit "Run"]); (Cyan, [Lit "gulp help"]);
              (Green, [Lit "to see a list of all test flags. (Use"]);
              (Cyan, [Lit "--nohelp"]);
              (Green, [Lit "to silence these messages.)"]) ] ;;
        when (negb (flag i "unit") && negb (flag i "integration")
              && negb (flag i "files"))
             (log [ (Green, [Lit "Running all tests. Use"]);
                    (Cyan, [Lit "--unit"]); (Green, [Lit "or"]);
                    (Cyan, [Lit "--integration"]);
                    (Green, [Lit "to run just the unit tests or integration tests."]) ]) ;;
        when (negb (flag i "compiled"))
             (log [ (Green, [Lit "Running tests against unminified code."]) ]) ;;
        log [ (Green, [Lit "Setting the runtime's AMP config to"]);
              (Cyan, [Lit (ampConfig i)]) ] ;;
        forEach (print_flag i) keys).

(** The function of the gulp task [test] (lines 387-396), run after
    [preTestTasks]. *)
Definition testTask (i : invocation) (keys : list string) : Run unit :=
  when (negb (flag i "nohelp")) (printArgvMessages i keys) ;;
  applyAmpConfig i "dist/amp.js" ;;
  applyAmpConfig i "dist/v0.js" ;;
  runTests i.

(** The lines [printArgvMessages] prints before the flags, and the line of
    one flag. *)
Definition help_banner (i : invocation) : list entry :=
  [ Log [ (Green, [Lit "Run"]); (Cyan, [Lit "gulp help"]);
          (Green, [Lit "to see a list of all test flags. (Use"]);
          (Cyan, [Lit "--nohelp"]);
          (Green, [Lit "to silence these messages.)"]) ] ]
  ++ (if negb (flag i "unit") && negb (flag i "integration")
         && negb (flag i "files")
      then [ Log [ (Green, [Lit "Running all tests. Use"]);
                   (Cyan, [Lit "--unit"]); (Green, [Lit "or"]);
                   (Cyan, [Lit "--integration"]);
                   (Green, [Lit "to run just the unit tests or integration tests."]) ] ]
      else [])
  ++ (if negb (flag i "compiled")
      then [ Log [ (Green, [Lit "Running tests against unminified code."]) ] ]
      else [])
  ++ [ Log [ (Green, [Lit "Setting the runtime's AMP config to"]);
             (Cyan, [Lit (ampConfig i)]) ] ].

Definition flag_line (i : invocation) (arg : string) : list entry :=
  match argvMessage i arg with
  | Some m => if message_truthy m then [flag_entry arg m] else []
  | None => []
  end.

Definition help_lines (i : invocation) (keys : list string) : list entry :=
  if env_set (env i) "TRAVIS" then []
  else help_banner i ++ flat_map (flag_line i) keys.

(** The world a computation ends in. *)
Definition res_world {A} (r : res A) : world :=
  match r with
  | Ret _ w => w
  | Exit _ w => w
  | Thrown _ w => w
  end.

(** The reporters Karma gets, from those [getConfig] chose: [--testnames]
    and, off the remote lab, [--files] replace them by mocha; [--coverage]
    adds two. *)
Definition final_reporters (i : invocation) (chosen : list string) : list string :=
  (if flag i "files" && negb (flag i "saucelabs")
      && negb (flag i "saucelabs_lite")
   then ["mocha"]
   else if flag i "testnames" then ["mocha"] else chosen)
  ++ (if flag i "coverage" then ["progress"; "coverage"] else []).

(** The browsers and reporters [getConfig] chooses, by layer. *)
Definition chosen_browsers (i : invocation) : list string :=
  match active_layer i with
  | BrowserOverride b => [b]
  | RemoteLab => if flag i "saucelabs" then saucelabs_browsers
                 else saucelabs_lite_browsers
  | DefaultConfig => browsers karmaDefault
  end.

Definition chosen_reporters (i : invocation) : list string :=
  match active_layer i with
  | RemoteLab => saucelabs_reporters
  | _ => reporters karmaDefault
  end.

(* ===================================================================== *)
(** ** Properties of getConfig *)
(* ===================================================================== *)

Ltac run_unfold :=
  unfold when, log_seed, readdirSync_ads, log, emit, throw, process_exit,
         set_serve_mode, start_server, start_karma, existsSync, bind, ret
    in *.

(** [getConfig] prints nothing and touches nothing: it returns a
    configuration or throws, in the world it was called in. *)
Lemma getConfig_world (i : invocation) (w : world) :
  (exists c, getConfig i w = Ret c w) \/ (exists m, getConfig i w = Thrown m w).
Proof.
  unfold getConfig. run_unfold.
  repeat match goal with
         | |- context [if ?b then _ else _] => destruct b
         end; eauto.
Qed.

Lemma browser_override_flag (i : invocation) (b : string) :
  browser_override i = Some b ->
  (b = "Safari" /\ flag i "safari" = true)
  \/ (b = "Firefox" /\ flag i "firefox" = true)
  \/ (b = "Edge" /\ flag i "edge" = true)
  \/ (b = "IE" /\ flag i "ie" = true).
Proof.
  unfold browser_override.
  destruct (flag i "safari"); [intros [= <-]; auto |].
  destruct (flag i "firefox"); [intros [= <-]; auto |].
  destruct (flag i "edge"); [intros [= <-]; auto |].
  destruct (flag i "ie"); [intros [= <-]; auto 6 | discriminate].
Qed.

(** C8. [getConfig] applies its overrides in a fixed order of precedence:
    a single-browser flag (--safari, --firefox, --edge, --ie) decides before
    the remote-lab flags (--saucelabs, --saucelabs_lite), which decide
    before the default configuration.  Under a browser override the result
    is the default with [browsers] replaced by exactly that one browser,
    whatever the remote-lab flags and the environment are. *)
Theorem getConfig_precedence (i : invocation) (w : world) :
  getConfig i w =
    match active_layer i with
    | BrowserOverride b => Ret (set_browsers [b] karmaDefault) w
    | RemoteLab =>
        if negb (env_set (env i) "SAUCE_USERNAME")
        then Thrown "Missing SAUCE_USERNAME Env variable" w
        else if negb (env_set (env i) "SAUCE_ACCESS_KEY")
        then Thrown "Missing SAUCE_ACCESS_KEY Env variable" w
        else Ret (set_browsers
                    (if flag i "saucelabs" then saucelabs_browsers
                     else saucelabs_lite_browsers)
                    (set_reporters saucelabs_reporters karmaDefault)) w
    | DefaultConfig => Ret karmaDefault w
    end
  /\ (forall b, active_layer i = BrowserOverride b ->
       exists c, getConfig i w = Ret c w
                 /\ browsers c = [b]
                 /\ reporters c = reporters karmaDefault
                 /\ files c = files karmaDefault
                 /\ client c = client karmaDefault).
Proof.
  assert (E : getConfig i w =
    match active_layer i with
    | BrowserOverride b => Ret (set_browsers [b] karmaDefault) w
    | RemoteLab =>
        if negb (env_set (env i) "SAUCE_USERNAME")
        then Thrown "Missing SAUCE_USERNAME Env variable" w
        else if negb (env_set (env i) "SAUCE_ACCESS_KEY")
        then Thrown "Missing SAUCE_ACCESS_KEY Env variable" w
        else Ret (set_browsers
                    (if flag i "saucelabs" then saucelabs_browsers
                     else saucelabs_lite_browsers)
                    (set_reporters saucelabs_reporters karmaDefault)) w
    | DefaultConfig => Ret karmaDefault w
    end).
  { unfold getConfig, active_layer, browser_override. run_unfold.
    destruct (flag i "safari"); [reflexivity |].
    destruct (flag i "firefox"); [reflexivity |].
    destruct (flag i "edge"); [reflexivity |].
    destruct (flag i "ie"); [reflexivity |].
    destruct (flag i "saucelabs" || flag i "saucelabs_lite"); [| reflexivity].
    destruct (env_set (env i) "SAUCE_USERNAME"); [| reflexivity].
    destruct (env_set (env i) "SAUCE_ACCESS_KEY"); reflexivity. }
  split; [exact E |].
  intros b Hb. rewrite E, Hb. eexists. split; [reflexivity |].
  repeat split.
Qed.

(** C5. With --saucelabs or --saucelabs_lite and no browser override, a
    missing (unset or empty) SAUCE_USERNAME or SAUCE_ACCESS_KEY makes
    [getConfig] throw an error that names a missing variable; no
    configuration is returned, and [runTests] ends with that error before
    Karma is started. *)
Theorem getConfig_missing_credentials (i : invocation) (w : world) :
  flag i "safari" = false -> flag i "firefox" = false ->
  flag i "edge" = false -> flag i "ie" = false ->
  flag i "saucelabs" || flag i "saucelabs_lite" = true ->
  env_set (env i) "SAUCE_USERNAME" = false
  \/ env_set (env i) "SAUCE_ACCESS_KEY" = false ->
  exists var,
    (var = "SAUCE_USERNAME" \/ var = "SAUCE_ACCESS_KEY")
    /\ env_set (env i) var = false
    /\ getConfig i w = Thrown ("Missing " +:+ var +:+ " Env variable") w
    /\ exists w', runTests i w
                   = Thrown ("Missing " +:+ var +:+ " Env variable") w'
                   /\ w_karma w' = w_karma w.
Proof.
  intros Hs Hf He Hi Hl Hmiss.
  assert (G : exists var,
    (var = "SAUCE_USERNAME" \/ var = "SAUCE_ACCESS_KEY")
    /\ env_set (env i) var = false
    /\ forall w0, getConfig i w0
                  = Thrown ("Missing " +:+ var +:+ " Env variable") w0).
  { destruct (env_set (env i) "SAUCE_USERNAME") eqn:Eu.
    - destruct Hmiss as [? | Ek]; [discriminate |].
      exists "SAUCE_ACCESS_KEY". split; [auto |]. split; [exact Ek |].
      intros w0. unfold getConfig. rewrite Hs, Hf, He, Hi, Hl, Eu, Ek.
      reflexivity.
    - exists "SAUCE_USERNAME". split; [auto |]. split; [exact Eu |].
      intros w0. unfold getConfig. rewrite Hs, Hf, He, Hi, Hl, Eu.
      reflexivity. }
  destruct G as (var & Hvar & Hunset & Hthrow).
  exists var. split; [exact Hvar |]. split; [exact Hunset |].
  split; [apply Hthrow |].
  unfold runTests. run_unfold.
  destruct (negb (flag i "integration") && env_set (env i) "AMPSAUCE_REPO");
    cbv beta iota; eexists; rewrite Hthrow; split; reflexivity.
Qed.

(* ===================================================================== *)
(** ** Properties of the file selection *)
(* ===================================================================== *)

Lemma add_log_nil (w : world) : add_log [] w = w.
Proof. destruct w. unfold add_log. simpl. by rewrite app_nil_r. Qed.

Lemma add_log_app (es1 es2 : list entry) (w : world) :
  add_log es2 (add_log es1 w) = add_log (es1 ++ es2) w.
Proof. unfold add_log. simpl. by rewrite app_assoc. Qed.

(** The shuffle step returns [ordering i] and logs the seed when it
    shuffles. *)
Lemma ordered_spec (i : invocation) (w : world) :
  ordered i w =
    Ret (ordering i)
        (add_log (if flag i "randomize" || flag i "a4a"
                  then [ Log [ (Yellow, [Lit "Randomizing:"]);
                               (Cyan, [Lit "Seeding with value"; Val (seed_used i)]) ];
                         Log [ (Yellow, [Lit "To rerun same ordering, append"]);
                               (Cyan, [Template "--seed=" (seed_used i)]);
                               (Yellow, [Lit "to your invocation of"]);
                               (Cyan, [Lit "gulp test"]) ] ]
                  else []) w).
Proof.
  unfold ordered, ordering.
  destruct (flag i "randomize" || flag i "a4a").
  - run_unfold. unfold add_log. simpl. by rewrite <- app_assoc.
  - by rewrite add_log_nil.
Qed.

(** The selection step always completes; it sets [c.files] to
    [final_files i], sets the reporter for an explicit file list off the
    remote lab, and logs only the seed. *)
Lemma selectFiles_spec (i : invocation) (c : KarmaConfig) (w : world) :
  exists c',
    selectFiles i c w = Ret c' (add_log (seed_log i) w)
    /\ files c' = final_files i
    /\ reporters c' =
         (if flag i "files" && negb (flag i "saucelabs")
             && negb (flag i "saucelabs_lite")
          then ["mocha"] else reporters c)
    /\ browsers c' = browsers c
    /\ singleRun c' = singleRun c
    /\ client c' = client c
    /\ browserify_transform c' = browserify_transform c
    /\ preprocessors c' = preprocessors c
    /\ coverageReporter c' = coverageReporter c.
Proof.
  unfold selectFiles, final_files, seed_log, selection_mode, mode_files,
         base_files, smoke_files.
  unfold bind at 1.
  destruct (flag i "files") eqn:Ef.
  { rewrite add_log_nil. unfold ret.
    destruct (flag i "saucelabs"), (flag i "saucelabs_lite"); simpl;
      eexists; (split; [reflexivity |]); simpl;
      rewrite <- ?app_assoc, ?app_nil_r; repeat split; reflexivity. }
  destruct (flag i "integration") eqn:Ei.
  { rewrite add_log_nil. unfold ret.
    destruct (flag i "saucelabs"), (flag i "saucelabs_lite"); simpl;
      eexists; (split; [reflexivity |]); simpl;
      rewrite <- ?app_assoc, ?app_nil_r; repeat split; reflexivity. }
  destruct (flag i "unit") eqn:Eu.
  { rewrite add_log_nil. unfold ret.
    destruct (flag i "saucelabs"), (flag i "saucelabs_lite"); simpl;
      eexists; (split; [reflexivity |]); simpl;
      rewrite <- ?app_assoc, ?app_nil_r; repeat split; reflexivity. }
  destruct (flag i "randomize" || flag i "glob" || flag i "a4a") eqn:Er.
  { unfold bind at 1. rewrite ordered_spec. unfold ret.
    destruct (flag i "saucelabs"), (flag i "saucelabs_lite"); simpl;
      eexists; (split; [reflexivity |]); simpl;
      rewrite <- ?app_assoc, ?app_nil_r; repeat split; reflexivity. }
  rewrite add_log_nil. unfold ret.
  destruct (flag i "saucelabs"), (flag i "saucelabs_lite"); simpl;
    eexists; (split; [reflexivity |]); simpl;
    rewrite <- ?app_assoc, ?app_nil_r; repeat split; reflexivity.
Qed.

(* ===================================================================== *)
(** ** The three ways [runTests] can end *)
(* ===================================================================== *)

(** [runTests] ends in one of four ways, decided by [getConfig], by the
    check of --saucelabs against --integration, and by the listing of the
    ads directory: it rethrows [getConfig]'s error; it prints the refusal
    and calls [process.exit()]; it fails listing the ads; or it starts the
    server and Karma, with [final_files i] as the file list. *)
Lemma runTests_cases (i : invocation) (w : world) :
  match getConfig i (add_log (ampsauce_note i) w) with
  | Thrown m _ => runTests i w = Thrown m (add_log (ampsauce_note i) w)
  | Exit _ _ => False
  | Ret c0 _ =>
      if flag i "saucelabs" && negb (flag i "integration") then
        runTests i w
        = Exit None (add_log (ampsauce_note i ++ lab_refusal) w)
      else
        match readdir_ads i with
        | None =>
            exists m w', runTests i w = Thrown m w'
                         /\ w_karma w' = w_karma w
        | Some names =>
            exists c w',
              runTests i w = Ret tt w'
              /\ w_karma w' = Some c
              /\ w_server w' = true
              /\ w_disk w' = w_disk w
              /\ files c = final_files i
              /\ browsers c = browsers c0
              /\ (exists a, amp (client c) = Some a
                             /\ adTypes a = getAdTypes names)
              /\ w_log w' = w_log w ++ ampsauce_note i ++ seed_log i
                                   ++ coverage_note i ++ server_note
        end
  end.
Proof.
  assert (Hnote : when (negb (flag i "integration")
                        && env_set (env i) "AMPSAUCE_REPO")
                       (emit (ConsoleInfo "Deactivated for ampsauce repo")) w
                  = Ret tt (add_log (ampsauce_note i) w)).
  { unfold ampsauce_note.
    destruct (negb (flag i "integration") && env_set (env i) "AMPSAUCE_REPO");
      [reflexivity | by rewrite add_log_nil]. }
  set (w1 := add_log (ampsauce_note i) w) in *.
  destruct (getConfig_world i w1) as [[c0 H] | [m H]]; rewrite H.
  2:{ unfold runTests. unfold bind at 1. rewrite Hnote.
      unfold bind at 1. by rewrite H. }
  destruct (flag i "saucelabs" && negb (flag i "integration")) eqn:Ex.
  { unfold runTests. unfold bind at 1. rewrite Hnote.
    unfold bind at 1. rewrite H. unfold bind at 1. rewrite Ex.
    rewrite <- add_log_app.
    unfold when, log, emit, process_exit, bind, lab_refusal.
    unfold add_log at 1.
    cbn [w_log w_disk w_serve_mode w_server w_karma].
    by rewrite <- app_assoc. }
  assert (Hrun : runTests i w =
    (c <- selectFiles i
            (let c := if flag i "watch" || flag i "w"
                      then set_singleRun (JBool false) c0 else c0 in
             let c := if flag i "verbose" || flag i "v"
                      then set_client
                             (set_captureConsole (JBool true) (client c)) c
                      else c in
             if flag i "testnames" then set_reporters ["mocha"] c else c) ;;
     names <- readdirSync_ads i ;;
     let c := set_client
                (set_amp (mkAmpClient
                            (flag i "compiled")
                            (flag i "saucelabs" || flag i "saucelabs_lite")
                            (getAdTypes names)
                            (prop (mocha (client c)) "timeout"))
                         (client c)) c in
     set_serve_mode (if flag i "compiled" then "compiled" else "default") ;;
     let c := if flag i "grep"
              then set_client
                     (set_mocha {[ "grep" := prop (argv i) "grep" ]} (client c)) c
              else c in
     c <- (if flag i "coverage" then
             (log [ (Cyan, [Lit "Including code coverage tests"]) ] ;;
              ret (set_coverage c))
           else ret c) ;;
     start_server ;;
     log [ (Yellow, [Lit "Started test responses server on localhost:31862"]) ] ;;
     start_karma c) w1).
  { unfold runTests. unfold bind at 1. rewrite Hnote.
    unfold bind at 1. rewrite H. unfold bind at 1. rewrite Ex.
    reflexivity. }
  unfold bind at 1 in Hrun.
  match type of Hrun with
  | context [selectFiles i ?c ?w0] =>
      destruct (selectFiles_spec i c w0)
        as (c' & Hsel & Hfiles & _ & Hbrowsers & _)
  end.
  rewrite Hsel in Hrun.
  unfold bind at 1 in Hrun. unfold readdirSync_ads in Hrun.
  destruct (readdir_ads i) as [names |].
  2:{ eexists _, _. split; [rewrite Hrun; reflexivity |]. reflexivity. }
  destruct (flag i "coverage") eqn:Ecov, (flag i "grep");
    (eexists _, _; split; [rewrite Hrun; reflexivity |]; cbn;
     split; [reflexivity |]; split; [reflexivity |]; split; [reflexivity |];
     split; [exact Hfiles |]; split;
     [ unfold set_coverage, set_client; cbn; rewrite Hbrowsers;
       destruct (flag i "watch" || flag i "w"),
                (flag i "verbose" || flag i "v"),
                (flag i "testnames"); reflexivity
     | unfold set_coverage, set_client; cbn; split;
       [ eexists; split; reflexivity
       | unfold coverage_note, server_note; subst w1;
         try rewrite Ecov; cbn; rewrite <- ?app_assoc; reflexivity ] ]).
Qed.

(** When [runTests] returns, Karma has been started with [final_files i];
    the full remote lab is only reached in integration mode. *)
Lemma runTests_launched (i : invocation) (w w' : world) :
  runTests i w = Ret tt w' ->
  exists c, w_karma w' = Some c
            /\ files c = final_files i
            /\ (flag i "saucelabs" = true -> flag i "integration" = true).
Proof.
  intros Hret. pose proof (runTests_cases i w) as Hc.
  destruct (getConfig i (add_log (ampsauce_note i) w)) as [c0 w1 | |];
    [| contradiction | congruence].
  destruct (flag i "saucelabs" && negb (flag i "integration")) eqn:Ex;
    [congruence |].
  destruct (readdir_ads i) as [names |].
  - destruct Hc as (c & w2 & Hrun & Hk & _ & _ & Hf & _).
    rewrite Hrun in Hret. injection Hret as <-.
    exists c. repeat split; [exact Hk | exact Hf |].
    intros Hs. rewrite Hs in Ex. simpl in Ex.
    by destruct (flag i "integration").
  - destruct Hc as (m & w2 & Hrun & _). congruence.
Qed.

(** Conversely, [runTests] does start Karma when [getConfig] returns, the
    lab check passes and the ads directory can be listed; the log then
    holds the seed lines of the selection step. *)
Lemma runTests_starts_karma (i : invocation) (w : world) (names : list string) :
  (forall w0, exists c0, getConfig i w0 = Ret c0 w0) ->
  flag i "saucelabs" && negb (flag i "integration") = false ->
  readdir_ads i = Some names ->
  exists c w',
    runTests i w = Ret tt w'
    /\ w_karma w' = Some c
    /\ files c = final_files i
    /\ (forall e, In e (seed_log i) -> In e (w_log w')).
Proof.
  intros Hcfg Hlab Hads. pose proof (runTests_cases i w) as Hc.
  destruct (Hcfg (add_log (ampsauce_note i) w)) as [c0 Hc0].
  rewrite Hc0, Hlab, Hads in Hc.
  destruct Hc as (c & w' & Hrun & Hk & _ & _ & Hf & _ & _ & Hlog).
  exists c, w'. repeat split; [exact Hrun | exact Hk | exact Hf |].
  intros e He. rewrite Hlog.
  apply in_or_app. right. apply in_or_app. right.
  apply in_or_app. by left.
Qed.

(** C3. Whatever the flags are, the selection step completes and the file
    list it leaves is decided by exactly one mode, chosen with the fixed
    precedence --files, then --integration, then --unit (the lab-safe
    subset with --saucelabs_lite), then --randomize/--glob/--a4a, then the
    default suite: the list is the base (chai-as-promised, unless
    --saucelabs), the files of that one mode, and the smoke test for the
    remote lab.  It is the list Karma is started with. *)
Theorem file_selection_precedence (i : invocation) (c : KarmaConfig) (w : world) :
  (exists c' w',
      selectFiles i c w = Ret c' w'
      /\ files c' = base_files i ++ mode_files i (selection_mode i)
                                 ++ smoke_files i)
  /\ (forall w', runTests i w = Ret tt w' ->
       exists k, w_karma w' = Some k
                 /\ files k = base_files i ++ mode_files i (selection_mode i)
                                           ++ smoke_files i)
  /\ selection_mode i =
       (if flag i "files" then ExplicitFiles
        else if flag i "integration" then Integration
        else if flag i "unit" then Unit (flag i "saucelabs_lite")
        else if flag i "randomize" || flag i "glob" || flag i "a4a"
             then Randomized
        else DefaultSuite).
Proof.
  split; [| split].
  - destruct (selectFiles_spec i c w) as (c' & Hsel & Hf & _). eauto.
  - intros w' Hret.
    destruct (runTests_launched i w w' Hret) as (k & Hk & Hf & _). eauto.
  - reflexivity.
Qed.

(** C6. With --saucelabs or --saucelabs_lite the smoke test
    ([config.simpleTestPath]) is appended at the end of the file list,
    in every selection mode: the selection step always leaves such a
    list, and it is the list of every run that reaches Karma. *)
Theorem smoke_test_appended (i : invocation) (c : KarmaConfig) (w : world) :
  flag i "saucelabs" || flag i "saucelabs_lite" = true ->
  (exists c' w',
      selectFiles i c w = Ret c' w'
      /\ files c' = (base_files i ++ mode_files i (selection_mode i))
                    ++ concat_arg (simpleTestPath config))
  /\ (forall w', runTests i w = Ret tt w' ->
       exists k, w_karma w' = Some k
                 /\ files k = (base_files i ++ mode_files i (selection_mode i))
                              ++ concat_arg (simpleTestPath config)).
Proof.
  intros Hlab.
  assert (E : final_files i
              = (base_files i ++ mode_files i (selection_mode i))
                ++ concat_arg (simpleTestPath config)).
  { unfold final_files, smoke_files. rewrite Hlab. by rewrite app_assoc. }
  split.
  - destruct (selectFiles_spec i c w) as (c' & Hsel & Hf & _).
    exists c', (add_log (seed_log i) w). by rewrite Hf, <- E.
  - intros w' Hret.
    destruct (runTests_launched i w w' Hret) as (k & Hk & Hf & _).
    exists k. by rewrite Hf, <- E.
Qed.

(* ===================================================================== *)
(** ** [indexOf] and [splice] *)
(* ===================================================================== *)

Lemma indexOf_absent (xs : list string) (x : string) :
  ~ In x xs -> indexOf xs x = (-1)%Z.
Proof.
  induction xs as [| y ys IH]; intros Hnot; [reflexivity |].
  simpl. destruct (String.eqb_spec y x) as [-> | Hne].
  - exfalso. apply Hnot. by left.
  - rewrite IH; [reflexivity |]. intros Hin. apply Hnot. by right.
Qed.

Lemma indexOf_present (xs : list string) (x : string) :
  In x xs ->
  exists before after,
    xs = before ++ x :: after
    /\ ~ In x before
    /\ indexOf xs x = Z.of_nat (length before).
Proof.
  induction xs as [| y ys IH]; intros Hin; [contradiction |].
  simpl. destruct (String.eqb_spec y x) as [-> | Hne].
  - exists [], ys. repeat split. intros [].
  - destruct Hin as [-> | Hin]; [contradiction |].
    destruct (IH Hin) as (before & after & -> & Hnot & Hidx).
    exists (y :: before), after. rewrite Hidx. repeat split.
    + intros [-> | Hb]; [contradiction | by apply Hnot].
    + destruct (Z.ltb_spec (Z.of_nat (length before)) 0); [lia |].
      simpl length. lia.
Qed.

(** [xs.splice(-1, 1)] removes the last element, if there is one. *)
Lemma splice1_minus_one (xs : list string) :
  splice1 xs (-1) = removelast xs.
Proof.
  unfold splice1. change (-1 <? 0)%Z with true. cbv iota.
  destruct xs as [| y ys]; [reflexivity |].
  replace (Z.to_nat (Z.max (Z.of_nat (length (y :: ys)) + -1) 0))
    with (pred (length (y :: ys))) by (simpl length; lia).
  rewrite removelast_firstn_len.
  replace (S (pred (length (y :: ys)))) with (length (y :: ys))
    by (simpl length; lia).
  by rewrite skipn_all, app_nil_r.
Qed.

(** [xs.splice(k, 1)] at the index of an element removes that element. *)
Lemma splice1_at (before after : list string) (x : string) :
  splice1 (before ++ x :: after) (Z.of_nat (length before)) = before ++ after.
Proof.
  unfold splice1.
  destruct (Z.ltb_spec (Z.of_nat (length before)) 0) as [? | _]; [lia |].
  rewrite length_app. simpl length.
  replace (Z.to_nat (Z.min (Z.of_nat (length before))
                           (Z.of_nat (length before + S (length after)))))
    with (length before) by lia.
  rewrite take_app_length.
  replace (S (length before)) with (length before + 1) by lia.
  rewrite <- drop_drop, drop_app_length. reflexivity.
Qed.

(** X4. When the init file is among the globbed files, its first
    occurrence is the one element removed. *)
Lemma splice_init_present (xs : list string) :
  In init_tests xs ->
  exists before after,
    xs = before ++ init_tests :: after
    /\ ~ In init_tests before
    /\ splice1 xs (indexOf xs init_tests) = before ++ after.
Proof.
  intros Hin.
  destruct (indexOf_present xs init_tests Hin)
    as (before & after & -> & Hnot & Hidx).
  exists before, after. rewrite Hidx. repeat split; [exact Hnot |].
  apply splice1_at.
Qed.

(** C9. In the randomized/glob/a4a branch, when 'test/_init_tests.js' is
    not among the (possibly shuffled) globbed files, [indexOf] is -1 and
    the splice removes the last element of that list if there is one: the
    file list ends with all globbed files but the last one, a non-empty
    list loses exactly its last file, an empty list loses nothing, and
    nothing but the seed is logged. *)
Theorem missing_init_drops_last_file
        (i : invocation) (c : KarmaConfig) (w : world) :
  flag i "files" = false ->
  flag i "integration" = false ->
  flag i "unit" = false ->
  flag i "randomize" || flag i "glob" || flag i "a4a" = true ->
  ~ In init_tests (ordering i) ->
  indexOf (ordering i) init_tests = (-1)%Z
  /\ splice1 (ordering i) (indexOf (ordering i) init_tests)
     = removelast (ordering i)
  /\ (exists c',
        selectFiles i c w = Ret c' (add_log (seed_log i) w)
        /\ files c' = base_files i
                      ++ (commonTestPaths config
                          ++ (JStr <$> removelast (ordering i)))
                      ++ smoke_files i)
  /\ (ordering i <> [] ->
      exists dropped,
        ordering i = removelast (ordering i) ++ [dropped]
        /\ length (removelast (ordering i)) + 1 = length (ordering i))
  /\ (ordering i = [] ->
      splice1 (ordering i) (indexOf (ordering i) init_tests) = ordering i).
Proof.
  intros Hf Hi Hu Hr Hnot.
  pose proof (indexOf_absent _ _ Hnot) as Hidx.
  assert (Hsp : splice1 (ordering i) (indexOf (ordering i) init_tests)
                = removelast (ordering i))
    by (rewrite Hidx; apply splice1_minus_one).
  split; [exact Hidx |]. split; [exact Hsp |]. split; [| split].
  - destruct (selectFiles_spec i c w) as (c' & Hsel & Hfiles & _).
    exists c'. split; [exact Hsel |]. rewrite Hfiles.
    unfold final_files, selection_mode. rewrite Hf, Hi, Hu, Hr.
    unfold mode_files. by rewrite Hsp.
  - intros Hne. exists (List.last (ordering i) "").
    pose proof (app_removelast_last "" Hne) as E.
    split; [exact E |].
    rewrite E at 2. rewrite length_app. reflexivity.
  - intros Hnil. rewrite Hsp, Hnil. reflexivity.
Qed.

(* ===================================================================== *)
(** ** The seed *)
(* ===================================================================== *)

(** A shuffling run prints the seed it uses in the rerun hint. *)
Lemma seed_echoed (i : invocation) (w : world) :
  flag i "randomize" || flag i "a4a" = true ->
  exists w', ordered i w = Ret (shuffle (globbed i) (seed_used i)) w'
             /\ In (rerun_hint (seed_used i)) (w_log w').
Proof.
  intros Hr. rewrite ordered_spec. unfold ordering. rewrite Hr.
  eexists. split; [reflexivity |].
  unfold add_log, rerun_hint. cbn [w_log].
  apply in_or_app. right. right. by left.
Qed.

(** X1. A truthy seed given on the command line is the seed used, whatever
    [Math.random()] would return: two shuffling runs with the same such
    seed and the same globbed files order them identically, and print
    that seed. *)
Lemma truthy_seed_reproducible (i1 i2 : invocation) (w1 w2 : world) :
  prop (argv i1) "seed" = prop (argv i2) "seed" ->
  truthy (prop (argv i1) "seed") = true ->
  globbed i1 = globbed i2 ->
  flag i1 "randomize" || flag i1 "a4a" = true ->
  flag i2 "randomize" || flag i2 "a4a" = true ->
  seed_used i1 = prop (argv i1) "seed"
  /\ ordering i1 = ordering i2
  /\ exists order w1' w2',
       ordered i1 w1 = Ret order w1' /\ ordered i2 w2 = Ret order w2'
       /\ In (rerun_hint (prop (argv i1) "seed")) (w_log w1')
       /\ In (rerun_hint (prop (argv i1) "seed")) (w_log w2').
Proof.
  intros Hseed Htruthy Hglob Hr1 Hr2.
  assert (E1 : seed_used i1 = prop (argv i1) "seed")
    by (unfold seed_used; by rewrite Htruthy).
  assert (E2 : seed_used i2 = prop (argv i1) "seed")
    by (unfold seed_used; by rewrite <- Hseed, Htruthy).
  split; [exact E1 |]. split.
  - unfold ordering. by rewrite Hr1, Hr2, E1, E2, Hglob.
  - destruct (seed_echoed i1 w1 Hr1) as (w1' & H1 & L1).
    destruct (seed_echoed i2 w2 Hr2) as (w2' & H2 & L2).
    rewrite E1 in H1, L1. rewrite E2, <- Hglob in H2. rewrite E2 in L2.
    eauto 8.
Qed.

(** C10. With --seed=0 the test [argv.seed || Math.random()] finds the
    seed falsy: the seed used, printed and handed to the shuffle is the
    value [Math.random()] returns, not 0.  Two runs with --seed=0 whose
    random draws differ therefore use different seeds. *)
Theorem seed_zero_is_discarded (i : invocation) (w : world) :
  prop (argv i) "seed" = JNum 0%float ->
  flag i "randomize" || flag i "a4a" = true ->
  seed_used i = JNum (math_random i)
  /\ (exists w',
        ordered i w = Ret (shuffle (globbed i) (JNum (math_random i))) w'
        /\ In (rerun_hint (JNum (math_random i))) (w_log w'))
  /\ (forall i' : invocation,
        prop (argv i') "seed" = JNum 0%float ->
        math_random i' <> math_random i ->
        seed_used i' <> seed_used i).
Proof.
  intros Hzero Hr.
  assert (Z0 : forall j : invocation,
             prop (argv j) "seed" = JNum 0%float ->
             seed_used j = JNum (math_random j)).
  { intros j Hj. unfold seed_used. rewrite Hj. reflexivity. }
  pose proof (Z0 i Hzero) as E.
  split; [exact E |]. split.
  - destruct (seed_echoed i w Hr) as (w' & Ho & Hl).
    rewrite E in Ho, Hl. eauto.
  - intros i' Hzero' Hne. rewrite E, (Z0 i' Hzero'). congruence.
Qed.

(** Off the remote lab [getConfig] returns, whatever the environment. *)
Lemma getConfig_off_lab (i : invocation) (w : world) :
  flag i "saucelabs" = false ->
  flag i "saucelabs_lite" = false ->
  exists c, getConfig i w = Ret c w.
Proof.
  intros Hs Hl. unfold getConfig, ret. rewrite Hs, Hl. simpl.
  destruct (flag i "safari"); [eauto |].
  destruct (flag i "firefox"); [eauto |].
  destruct (flag i "edge"); [eauto |].
  destruct (flag i "ie"); eauto.
Qed.

Lemma fmap_JStr_inj (xs ys : list string) :
  JStr <$> xs = JStr <$> ys -> xs = ys.
Proof.
  revert ys. induction xs as [| x xs IH]; intros [| y ys] E;
    try discriminate; [reflexivity |].
  injection E as -> E. f_equal. by apply IH.
Qed.

(** In a shuffling run of the randomized branch, Karma's file list ends
    with the tests the shuffle leaves for the seed used. *)
Lemma final_files_shuffled (i : invocation) :
  selection_mode i = Randomized ->
  flag i "randomize" || flag i "a4a" = true ->
  final_files i
  = base_files i
    ++ (commonTestPaths config ++ (JStr <$> tests_for_seed i (seed_used i)))
    ++ smoke_files i.
Proof.
  intros Hm Hr. unfold final_files. rewrite Hm. unfold mode_files.
  unfold ordering. rewrite Hr. reflexivity.
Qed.

(** C1. The seeded shuffle is not reproducible for the caller-supplied
    seed 0.  Take two runs with the same command line, --seed=0 on it, the
    same files on disk, in the shuffling randomized branch and off the
    remote lab.  The seed handed to the shuffle and printed in the rerun
    hint is each run's own [Math.random()] draw, not 0; so whenever the
    shuffle leaves different test orders for the two draws, Karma is
    started with different file lists in the two runs. *)
Theorem seed_zero_runs_differ
        (i1 i2 : invocation) (w1 w2 : world) :
  argv i1 = argv i2 ->
  glob_sync i1 = glob_sync i2 ->
  prop (argv i1) "seed" = JNum 0%float ->
  selection_mode i1 = Randomized ->
  flag i1 "randomize" || flag i1 "a4a" = true ->
  flag i1 "saucelabs" = false ->
  flag i1 "saucelabs_lite" = false ->
  is_Some (readdir_ads i1) ->
  is_Some (readdir_ads i2) ->
  tests_for_seed i1 (JNum (math_random i1))
  <> tests_for_seed i1 (JNum (math_random i2)) ->
  globbed i1 = globbed i2
  /\ seed_used i1 = JNum (math_random i1)
  /\ seed_used i2 = JNum (math_random i2)
  /\ exists w1' w2' k1 k2,
       runTests i1 w1 = Ret tt w1'
       /\ runTests i2 w2 = Ret tt w2'
       /\ w_karma w1' = Some k1 /\ w_karma w2' = Some k2
       /\ files k1 <> files k2
       /\ In (rerun_hint (JNum (math_random i1))) (w_log w1')
       /\ In (rerun_hint (JNum (math_random i2))) (w_log w2').
Proof.
  intros Hargv Hglob Hzero Hm Hr Hs Hl [names1 Hads1] [names2 Hads2] Hdiff.
  assert (Hflag : forall k, flag i2 k = flag i1 k)
    by (intros k; unfold flag; by rewrite Hargv).
  assert (Hg : globbed i1 = globbed i2)
    by (unfold globbed; by rewrite Hflag, Hglob).
  assert (E1 : seed_used i1 = JNum (math_random i1))
    by (unfold seed_used; rewrite Hzero; reflexivity).
  assert (E2 : seed_used i2 = JNum (math_random i2))
    by (unfold seed_used; rewrite <- Hargv, Hzero; reflexivity).
  assert (Hm2 : selection_mode i2 = Randomized)
    by (rewrite <- Hm; unfold selection_mode; by rewrite !Hflag).
  assert (Hr2 : flag i2 "randomize" || flag i2 "a4a" = true)
    by (by rewrite !Hflag).
  assert (Hlab : flag i1 "saucelabs" && negb (flag i1 "integration") = false)
    by (by rewrite Hs).
  assert (Hlab2 : flag i2 "saucelabs" && negb (flag i2 "integration") = false)
    by (by rewrite !Hflag).
  repeat (split; [assumption |]).
  destruct (runTests_starts_karma i1 w1 names1)
    as (k1 & w1' & Hr1 & Hk1 & Hf1 & Hl1);
    [intros w0; by apply getConfig_off_lab | exact Hlab | exact Hads1 |].
  destruct (runTests_starts_karma i2 w2 names2)
    as (k2 & w2' & Hrun2 & Hk2 & Hf2 & Hl2);
    [intros w0; apply getConfig_off_lab; by rewrite Hflag
    | exact Hlab2 | exact Hads2 |].
  exists w1', w2', k1, k2.
  repeat (split; [assumption |]). split; [| split].
  - rewrite Hf1, Hf2.
    rewrite (final_files_shuffled i1 Hm Hr), (final_files_shuffled i2 Hm2 Hr2).
    rewrite E1, E2.
    replace (base_files i2) with (base_files i1)
      by (unfold base_files; by rewrite Hflag).
    replace (smoke_files i2) with (smoke_files i1)
      by (unfold smoke_files; by rewrite !Hflag).
    replace (tests_for_seed i2 (JNum (math_random i2)))
      with (tests_for_seed i1 (JNum (math_random i2)))
      by (unfold tests_for_seed; by rewrite Hg).
    intros E. apply Hdiff.
    apply app_inv_head, app_inv_tail, app_inv_head in E.
    by apply fmap_JStr_inj.
  - apply Hl1. unfold seed_log. rewrite Hm, Hr, E1.
    right. by left.
  - apply Hl2. unfold seed_log. rewrite Hm2, Hr2, E2.
    right. by left.
Qed.

(* ===================================================================== *)
(** ** The refusal of the full lab outside integration mode *)
(* ===================================================================== *)

(** C2. With --saucelabs and without --integration, Karma is never
    started: either [getConfig] throws (missing credentials), or the two
    red lines are printed and [process.exit()] is called.  That call
    passes no exit code, so the status of the process is 0. *)
Theorem lab_without_integration_exit (i : invocation) (w : world) :
  flag i "saucelabs" = true ->
  flag i "integration" = false ->
  match getConfig i (add_log (ampsauce_note i) w) with
  | Ret _ _ =>
      exists w', runTests i w = Exit None w'
                 /\ w_log w' = w_log w ++ ampsauce_note i ++ lab_refusal
                 /\ w_karma w' = w_karma w
                 /\ w_server w' = w_server w
                 /\ exit_status None = 0%Z
  | Thrown m _ =>
      exists w', runTests i w = Thrown m w' /\ w_karma w' = w_karma w
  | Exit _ _ => False
  end.
Proof.
  intros Hs Hi. pose proof (runTests_cases i w) as Hc.
  rewrite Hs, Hi in Hc. simpl in Hc.
  destruct (getConfig i (add_log (ampsauce_note i) w)); [| exact Hc |].
  - eexists. split; [exact Hc |]. repeat split.
  - eexists. split; [exact Hc |]. reflexivity.
Qed.


(* ===================================================================== *)
(** ** applyAmpConfig *)
(* ===================================================================== *)

(** C7. When the target file does not exist, [applyAmpConfig] resolves
    and leaves the world (the disk included) as it was; when it exists,
    [removeConfig] runs on it and then, if that succeeded, [applyConfig]
    with the selected config and its config file: canary and
    canary-config.json exactly when --config is the string 'canary', prod
    and prod-config.json for every other command line. *)
Theorem applyAmpConfig_target (i : invocation) (target : string) (w : world) :
  (w_disk w !! target = None -> applyAmpConfig i target w = Ret tt w)
  /\ (is_Some (w_disk w !! target) ->
      prop (argv i) "config" = JStr "canary" ->
      applyAmpConfig i target w
      = match removeConfig target w with
        | Ret _ w1 =>
            applyConfig "canary" target
              "build-system/global-configs/canary-config.json" true true w1
        | Exit code w1 => Exit code w1
        | Thrown m w1 => Thrown m w1
        end)
  /\ (is_Some (w_disk w !! target) ->
      prop (argv i) "config" <> JStr "canary" ->
      applyAmpConfig i target w
      = match removeConfig target w with
        | Ret _ w1 =>
            applyConfig "prod" target
              "build-system/global-configs/prod-config.json" true true w1
        | Exit code w1 => Exit code w1
        | Thrown m w1 => Thrown m w1
        end)
  /\ (ampConfig i = "canary" <-> prop (argv i) "config" = JStr "canary")
  /\ (ampConfig i = "prod" <-> prop (argv i) "config" <> JStr "canary").
Proof.
  assert (Hc : prop (argv i) "config" = JStr "canary" ->
               ampConfig i = "canary").
  { intros E. unfold ampConfig. by rewrite E. }
  assert (Hp : prop (argv i) "config" <> JStr "canary" ->
               ampConfig i = "prod").
  { intros Hne. unfold ampConfig.
    destruct (prop (argv i) "config") as [| | | s | |]; try reflexivity.
    destruct (String.eqb_spec s "canary") as [-> | _];
      [contradiction | reflexivity]. }
  assert (Hrun : is_Some (w_disk w !! target) ->
                 applyAmpConfig i target w
                 = match removeConfig target w with
                   | Ret _ w1 =>
                       applyConfig (ampConfig i) target
                         ("build-system/global-configs/" +:+ ampConfig i
                          +:+ "-config.json") true true w1
                   | Exit code w1 => Exit code w1
                   | Thrown m w1 => Thrown m w1
                   end).
  { intros Hsome. unfold applyAmpConfig, existsSync, bind.
    by rewrite bool_decide_eq_true_2. }
  split; [| split; [| split; [| split]]].
  - intros Hnone. unfold applyAmpConfig, existsSync, bind, ret.
    rewrite Hnone. by rewrite bool_decide_eq_false_2 by (by intros [? ?]).
  - intros Hsome E. rewrite (Hrun Hsome), (Hc E). reflexivity.
  - intros Hsome Hne. rewrite (Hrun Hsome), (Hp Hne). reflexivity.
  - split; [| exact Hc]. unfold ampConfig.
    destruct (prop (argv i) "config") as [| | | s | |]; try discriminate.
    destruct (String.eqb_spec s "canary") as [-> | _];
      [reflexivity | discriminate].
  - split; [| exact Hp]. intros E Hcan. rewrite (Hc Hcan) in E. discriminate.
Qed.

(* ===================================================================== *)
(** ** printArgvMessages *)
(* ===================================================================== *)

Lemma print_flag_line (i : invocation) (arg : string) (w : world) :
  print_flag i arg w = Ret tt (add_log (flag_line i arg) w).
Proof.
  unfold print_flag, flag_line.
  destruct (argvMessage i arg) as [m |]; [| by rewrite add_log_nil].
  destruct (message_truthy m); [reflexivity | by rewrite add_log_nil].
Qed.

Lemma forEach_print_flag (i : invocation) (keys : list string) (w : world) :
  forEach (print_flag i) keys w
  = Ret tt (add_log (flat_map (flag_line i) keys) w).
Proof.
  revert w. induction keys as [| k rest IH]; intros w; simpl.
  - by rewrite add_log_nil.
  - unfold bind. rewrite print_flag_line, IH. by rewrite add_log_app.
Qed.

Lemma printArgvMessages_add_log (i : invocation) (keys : list string) (w : world) :
  printArgvMessages i keys w = Ret tt (add_log (help_lines i keys) w).
Proof.
  unfold printArgvMessages, help_lines.
  destruct (env_set (env i) "TRAVIS"); simpl negb; unfold when at 1.
  { by rewrite add_log_nil. }
  unfold help_banner.
  destruct (negb (flag i "unit") && negb (flag i "integration")
            && negb (flag i "files")),
           (negb (flag i "compiled"));
    unfold when, log, emit, bind, ret; cbv beta iota;
    rewrite forEach_print_flag; unfold add_log;
    cbn [w_log w_disk w_serve_mode w_server w_karma];
    do 2 f_equal; cbn [app]; rewrite <- ?app_assoc; reflexivity.
Qed.

(** X6. [printArgvMessages] always returns and only appends to the log:
    nothing when TRAVIS is set; otherwise the help line, the
    "all tests" line unless --unit, --integration or --files is given, the
    "unminified" line unless --compiled is given, the AMP config line, and
    then one line per key of [argv] that has a message, in the order of the
    keys.  The disk, SERVE_MODE, the server and Karma are left alone. *)
Theorem printArgvMessages_output (i : invocation) (keys : list string) (w : world) :
  printArgvMessages i keys w
  = Ret tt (mkWorld (w_log w ++ help_lines i keys) (w_disk w)
                    (w_serve_mode w) (w_server w) (w_karma w))
  /\ (env_set (env i) "TRAVIS" = true -> printArgvMessages i keys w = Ret tt w)
  /\ (env_set (env i) "TRAVIS" = false ->
      help_lines i keys = help_banner i ++ flat_map (flag_line i) keys).
Proof.
  pose proof (printArgvMessages_add_log i keys w) as E.
  split; [exact E |]. split.
  - intros Ht. rewrite E. unfold help_lines. rewrite Ht. by rewrite add_log_nil.
  - intros Ht. unfold help_lines. by rewrite Ht.
Qed.

Lemma own_message_not_empty (i : invocation) (arg text : string) :
  argvMessages i !! arg = Some text -> String.eqb text "" = false.
Proof.
  intros Hl. unfold argvMessages in Hl.
  apply elem_of_list_to_map_2 in Hl.
  repeat (apply elem_of_cons in Hl as [[= -> ->] | Hl]; [reflexivity |]).
  by apply elem_of_nil in Hl.
Qed.

Lemma argvMessages_fixed (i1 i2 : invocation) (arg : string) :
  arg <> "files" -> arg <> "seed" -> arg <> "grep" ->
  argvMessages i1 !! arg = argvMessages i2 !! arg.
Proof.
  intros Hf Hs Hg. unfold argvMessages. cbn [list_to_map foldr uncurry fst snd].
  rewrite !lookup_insert.
  repeat (case_decide; [subst; try reflexivity; congruence |]).
  reflexivity.
Qed.

(** X7. The line of a flag depends on the presence of its key, not on its
    value: a key with an entry in the message table always gets its line
    (the texts are never empty), so [--seed=0] or a negated flag is
    announced like any other; and except for --files, --seed and --grep,
    whose values are quoted, the line is the same on every command line.  A
    key with no entry and no inherited property gets no line. *)
Theorem flag_line_by_presence (i : invocation) (arg : string) :
  (forall text, argvMessages i !! arg = Some text ->
                flag_line i arg = [flag_entry arg (OwnMessage text)])
  /\ (argvMessages i !! arg = None -> Object_prototype !! arg = None ->
      flag_line i arg = [])
  /\ (forall i', arg <> "files" -> arg <> "seed" -> arg <> "grep" ->
                 flag_line i' arg = flag_line i arg).
Proof.
  split; [| split].
  - intros text Hl. unfold flag_line, argvMessage. rewrite Hl.
    unfold message_truthy. by rewrite (own_message_not_empty i arg text Hl).
  - intros Hl Hp. unfold flag_line, argvMessage. by rewrite Hl, Hp.
  - intros i' Hf Hs Hg. unfold flag_line, argvMessage.
    by rewrite (argvMessages_fixed i' i arg Hf Hs Hg).
Qed.

(** X8. Off Travis, a run of [gulp test --randomize --seed=0] is told
    "Randomizing test order with seed 0." by the help lines, while the seed
    [runTests] uses and prints in the rerun hint is the value of
    [Math.random()]. *)
Theorem seed_zero_announced (i : invocation) (keys : list string) (w : world) :
  env_set (env i) "TRAVIS" = false ->
  In "seed" keys ->
  prop (argv i) "seed" = JNum 0%float ->
  flag i "randomize" || flag i "a4a" = true ->
  (exists w', printArgvMessages i keys w = Ret tt w'
              /\ In (flag_entry "seed"
                       (OwnMessage ("Randomizing test order with seed "
                                    +:+ cyan_str (JNum 0%float) +:+ ".")))
                    (w_log w'))
  /\ (forall w0, exists w',
        ordered i w0 = Ret (shuffle (globbed i) (JNum (math_random i))) w'
        /\ In (rerun_hint (JNum (math_random i))) (w_log w')).
Proof.
  intros Ht Hk Hz Hr. split.
  - pose proof (printArgvMessages_add_log i keys w) as E.
    eexists. split; [exact E |]. unfold add_log, help_lines. cbn [w_log].
    rewrite Ht.
    apply in_or_app. right. apply in_or_app. right.
    apply in_flat_map. exists "seed". split; [exact Hk |].
    unfold flag_line, argvMessage, argvMessages.
    cbn [list_to_map foldr uncurry fst snd]. rewrite !lookup_insert.
    repeat (case_decide; [discriminate |]).
    case_decide; [| contradiction]. rewrite Hz. simpl. by left.
  - intros w0. destruct (seed_echoed i w0 Hr) as (w' & Ho & Hl).
    assert (E : seed_used i = JNum (math_random i))
      by (unfold seed_used; rewrite Hz; reflexivity).
    rewrite E in Ho, Hl. eauto.
Qed.

(* ===================================================================== *)
(** ** The outcome of [runTests] in full *)
(* ===================================================================== *)

(** The outcome of [runTests], with the world it ends in and every field
    of the configuration Karma is started with, [c0] being what [getConfig]
    returned. *)
Lemma runTests_outcome (i : invocation) (w : world) :
  match getConfig i (add_log (ampsauce_note i) w) with
  | Thrown m _ => runTests i w = Thrown m (add_log (ampsauce_note i) w)
  | Exit _ _ => False
  | Ret c0 _ =>
      if flag i "saucelabs" && negb (flag i "integration") then
        runTests i w
        = Exit None (add_log (ampsauce_note i ++ lab_refusal) w)
      else
        match readdir_ads i with
        | None =>
            exists m, runTests i w
                      = Thrown m (add_log (ampsauce_note i ++ seed_log i) w)
        | Some names =>
            exists k,
              runTests i w
              = Ret tt (mkWorld
                          (w_log w ++ ampsauce_note i ++ seed_log i
                                   ++ coverage_note i ++ server_note)
                          (w_disk w)
                          (Some (if flag i "compiled" then "compiled"
                                 else "default"))
                          true (Some k))
              /\ files k = final_files i
              /\ browsers k = browsers c0
              /\ reporters k = final_reporters i (reporters c0)
              /\ singleRun k = (if flag i "watch" || flag i "w"
                                then JBool false else singleRun c0)
              /\ client k
                 = mkClient
                     (if flag i "verbose" || flag i "v"
                      then JBool true else captureConsole (client c0))
                     (if flag i "grep"
                      then {[ "grep" := prop (argv i) "grep" ]}
                      else mocha (client c0))
                     (Some (mkAmpClient
                              (flag i "compiled")
                              (flag i "saucelabs" || flag i "saucelabs_lite")
                              (getAdTypes names)
                              (prop (mocha (client c0)) "timeout")))
              /\ preprocessors k
                 = (if flag i "coverage"
                    then preprocessors (set_coverage c0)
                    else preprocessors c0)
              /\ browserify_transform k
                 = browserify_transform c0
                   ++ (if flag i "coverage" then ["browserify-istanbul"]
                       else [])
              /\ coverageReporter k
                 = (if flag i "coverage" then true else coverageReporter c0)
        end
  end.
Proof.
  assert (Hnote : when (negb (flag i "integration")
                        && env_set (env i) "AMPSAUCE_REPO")
                       (emit (ConsoleInfo "Deactivated for ampsauce repo")) w
                  = Ret tt (add_log (ampsauce_note i) w)).
  { unfold ampsauce_note.
    destruct (negb (flag i "integration") && env_set (env i) "AMPSAUCE_REPO");
      [reflexivity | by rewrite add_log_nil]. }
  pose proof (runTests_cases i w) as Hcases.
  set (w1 := add_log (ampsauce_note i) w) in *.
  destruct (getConfig_world i w1) as [[c0 H] | [m H]]; rewrite H in *;
    [| exact Hcases].
  destruct (flag i "saucelabs" && negb (flag i "integration")) eqn:Ex;
    [exact Hcases |].
  clear Hcases.
  assert (Hrun : runTests i w =
    (c <- selectFiles i
            (let c := if flag i "watch" || flag i "w"
                      then set_singleRun (JBool false) c0 else c0 in
             let c := if flag i "verbose" || flag i "v"
                      then set_client
                             (set_captureConsole (JBool true) (client c)) c
                      else c in
             if flag i "testnames" then set_reporters ["mocha"] c else c) ;;
     names <- readdirSync_ads i ;;
     let c := set_client
                (set_amp (mkAmpClient
                            (flag i "compiled")
                            (flag i "saucelabs" || flag i "saucelabs_lite")
                            (getAdTypes names)
                            (prop (mocha (client c)) "timeout"))
                         (client c)) c in
     set_serve_mode (if flag i "compiled" then "compiled" else "default") ;;
     let c := if flag i "grep"
              then set_client
                     (set_mocha {[ "grep" := prop (argv i) "grep" ]} (client c)) c
              else c in
     c <- (if flag i "coverage" then
             (log [ (Cyan, [Lit "Including code coverage tests"]) ] ;;
              ret (set_coverage c))
           else ret c) ;;
     start_server ;;
     log [ (Yellow, [Lit "Started test responses server on localhost:31862"]) ] ;;
     start_karma c) w1).
  { unfold runTests. unfold bind at 1. rewrite Hnote.
    unfold bind at 1. rewrite H. unfold bind at 1. rewrite Ex.
    reflexivity. }
  unfold bind at 1 in Hrun.
  match type of Hrun with
  | context [selectFiles i ?c ?w0] =>
      destruct (selectFiles_spec i c w0)
        as (c' & Hsel & Hfiles & Hrep & Hbr & Hsr & Hcl & Htr & Hpre & Hcov)
  end.
  rewrite Hsel in Hrun.
  unfold bind at 1 in Hrun. unfold readdirSync_ads in Hrun.
  destruct (readdir_ads i) as [names |].
  2:{ eexists. rewrite Hrun. unfold throw. subst w1.
      by rewrite add_log_app. }
  unfold final_reporters, coverage_note.
  destruct (flag i "coverage"), (flag i "grep");
    (eexists; split;
     [ rewrite Hrun; run_unfold; subst w1; unfold add_log, server_note;
       cbn [w_log w_disk w_serve_mode w_server w_karma];
       rewrite <- ?app_assoc; cbn [app]; reflexivity
     | unfold set_coverage, set_client, set_amp, set_mocha;
       cbn [files browsers reporters singleRun client browserify_transform
            preprocessors coverageReporter captureConsole mocha amp];
       rewrite ?Hfiles, ?Hbr, ?Hrep, ?Hsr, ?Hcl, ?Htr, ?Hpre, ?Hcov;
       destruct (flag i "files" && negb (flag i "saucelabs")
                 && negb (flag i "saucelabs_lite")),
                (flag i "watch" || flag i "w"),
                (flag i "verbose" || flag i "v"),
                (flag i "testnames");
       cbn; rewrite ?app_nil_r; repeat split ]).
Qed.

(** What [getConfig] returns differs from [karmaDefault] in [browsers] and
    [reporters] only. *)
Lemma getConfig_fields (i : invocation) (w w' : world) (c : KarmaConfig) :
  getConfig i w = Ret c w' ->
  browsers c = chosen_browsers i
  /\ reporters c = chosen_reporters i
  /\ singleRun c = singleRun karmaDefault
  /\ files c = files karmaDefault
  /\ client c = client karmaDefault
  /\ browserify_transform c = browserify_transform karmaDefault
  /\ preprocessors c = preprocessors karmaDefault
  /\ coverageReporter c = coverageReporter karmaDefault.
Proof.
  unfold getConfig, chosen_browsers, chosen_reporters, active_layer,
         browser_override, throw, ret.
  destruct (flag i "safari"); [intros [= <- _]; repeat split |].
  destruct (flag i "firefox"); [intros [= <- _]; repeat split |].
  destruct (flag i "edge"); [intros [= <- _]; repeat split |].
  destruct (flag i "ie"); [intros [= <- _]; repeat split |].
  destruct (flag i "saucelabs" || flag i "saucelabs_lite");
    [| intros [= <- _]; repeat split].
  destruct (negb (env_set (env i) "SAUCE_USERNAME")); [discriminate |].
  destruct (negb (env_set (env i) "SAUCE_ACCESS_KEY")); [discriminate |].
  intros [= <- _]. repeat split.
Qed.

(** A run that returns has started Karma; the configuration it passed is
    [karmaDefault] changed as the flags say. *)
Lemma runTests_launch_config (i : invocation) (w w' : world) :
  runTests i w = Ret tt w' ->
  exists names k,
    readdir_ads i = Some names
    /\ w_karma w' = Some k
    /\ w_serve_mode w'
       = Some (if flag i "compiled" then "compiled" else "default")
    /\ files k = final_files i
    /\ browsers k = chosen_browsers i
    /\ reporters k = final_reporters i (chosen_reporters i)
    /\ singleRun k = (if flag i "watch" || flag i "w"
                      then JBool false else singleRun karmaDefault)
    /\ client k
       = mkClient
           (if flag i "verbose" || flag i "v"
            then JBool true else captureConsole (client karmaDefault))
           (if flag i "grep"
            then {[ "grep" := prop (argv i) "grep" ]}
            else mocha (client karmaDefault))
           (Some (mkAmpClient
                    (flag i "compiled")
                    (flag i "saucelabs" || flag i "saucelabs_lite")
                    (getAdTypes names)
                    (prop (mocha (client karmaDefault)) "timeout")))
    /\ preprocessors k
       = (if flag i "coverage"
          then preprocessors (set_coverage karmaDefault)
          else preprocessors karmaDefault)
    /\ (flag i "saucelabs" = true -> flag i "integration" = true).
Proof.
  intros Hret. pose proof (runTests_outcome i w) as Ho.
  destruct (getConfig i (add_log (ampsauce_note i) w)) as [c0 w1 | |] eqn:Hc;
    [| contradiction | congruence].
  destruct (getConfig_fields _ _ _ _ Hc)
    as (Hb & Hr & Hs & _ & Hcl & _ & Hp & _).
  destruct (flag i "saucelabs" && negb (flag i "integration")) eqn:Ex;
    [congruence |].
  destruct (readdir_ads i) as [names |]; [| destruct Ho; congruence].
  destruct Ho as (k & Hrun & Hf & Hkb & Hkr & Hks & Hkc & Hkp & _).
  rewrite Hrun in Hret. injection Hret as <-.
  exists names, k. cbn [w_karma w_serve_mode].
  rewrite Hkb, Hkr, Hks, Hkc, Hkp, Hb, Hr, Hs, Hcl.
  unfold set_coverage. cbn [preprocessors]. rewrite Hp.
  repeat split; try assumption.
  intros Hsl. rewrite Hsl in Ex. by destruct (flag i "integration").
Qed.

(** X9. [runTests] never touches the disk and only appends to the log.
    When it returns, the server and Karma have been started and SERVE_MODE
    is 'compiled' or 'default' as --compiled says; when it ends the process
    it does so without an exit code; and when it exits or throws, it has
    started neither the server nor Karma and has left SERVE_MODE alone. *)
Theorem runTests_frame (i : invocation) (w : world) :
  w_disk (res_world (runTests i w)) = w_disk w
  /\ (exists lines, w_log (res_world (runTests i w)) = w_log w ++ lines)
  /\ match runTests i w with
     | Ret _ w' =>
         w_server w' = true /\ is_Some (w_karma w')
         /\ w_serve_mode w'
            = Some (if flag i "compiled" then "compiled" else "default")
     | Exit code w' =>
         code = None /\ w_server w' = w_server w
         /\ w_karma w' = w_karma w /\ w_serve_mode w' = w_serve_mode w
     | Thrown _ w' =>
         w_server w' = w_server w
         /\ w_karma w' = w_karma w /\ w_serve_mode w' = w_serve_mode w
     end.
Proof.
  pose proof (runTests_outcome i w) as Ho.
  destruct (getConfig i (add_log (ampsauce_note i) w)) as [c0 w1 | |];
    [| contradiction | rewrite Ho; cbn; eauto 6].
  destruct (flag i "saucelabs" && negb (flag i "integration"));
    [rewrite Ho; cbn; eauto 8 |].
  destruct (readdir_ads i) as [names |].
  - destruct Ho as (k & -> & _). cbn. eauto 8.
  - destruct Ho as (m & ->). cbn. eauto 6.
Qed.

(* ===================================================================== *)
(** ** The configuration Karma is started with *)
(* ===================================================================== *)

(** X10. In a run that starts Karma, the browsers are those [getConfig]
    chose and the reporters are settled in this order: --files off the
    remote lab, else --testnames, replace the chosen reporters (the lab's
    too) by mocha; --coverage then adds progress and coverage.  --watch (or
    -w) turns single-run off. *)
Theorem karma_reporters_precedence (i : invocation) (w w' : world) :
  runTests i w = Ret tt w' ->
  exists k,
    w_karma w' = Some k
    /\ browsers k = chosen_browsers i
    /\ reporters k
       = (if flag i "files" && negb (flag i "saucelabs")
             && negb (flag i "saucelabs_lite")
          then ["mocha"]
          else if flag i "testnames" then ["mocha"]
          else chosen_reporters i)
         ++ (if flag i "coverage" then ["progress"; "coverage"] else [])
    /\ singleRun k = (if flag i "watch" || flag i "w"
                      then JBool false else singleRun karmaDefault).
Proof.
  intros Hret.
  destruct (runTests_launch_config i w w' Hret)
    as (names & k & _ & Hk & _ & _ & Hb & Hr & Hs & _).
  exists k. repeat split; assumption.
Qed.

(** X11. In a run that starts Karma, --grep replaces the mocha options of
    the client by the single option grep, so the configured timeout is no
    longer among them, while [client.amp.mochaTimeout] still carries the
    timeout of karma.conf; without --grep the mocha options are those of
    karma.conf. *)
Theorem grep_replaces_mocha_options (i : invocation) (w w' : world) :
  runTests i w = Ret tt w' ->
  exists k a,
    w_karma w' = Some k
    /\ amp (client k) = Some a
    /\ mochaTimeout a = prop (mocha (client karmaDefault)) "timeout"
    /\ (flag i "grep" = true ->
        mocha (client k) = {[ "grep" := prop (argv i) "grep" ]}
        /\ mocha (client k) !! "timeout" = None)
    /\ (flag i "grep" = false ->
        mocha (client k) = mocha (client karmaDefault)).
Proof.
  intros Hret.
  destruct (runTests_launch_config i w w' Hret)
    as (names & k & _ & Hk & _ & _ & _ & _ & _ & Hc & _).
  eexists k, _. rewrite Hc. cbn [amp mocha mochaTimeout].
  split; [exact Hk |]. split; [reflexivity |]. split; [reflexivity |].
  split; intros ->; [split; [reflexivity |] | reflexivity].
  by apply lookup_singleton_ne.
Qed.

(** X12. In a run that starts Karma, what the test page is told agrees
    with what the run does: [useCompiledJs] is true exactly when SERVE_MODE
    is set to 'compiled', [saucelabs] is true exactly when a remote-lab flag
    is given, [adTypes] is the list [getAdTypes] computes from the ads
    directory, and console capture is on with --verbose or -v. *)
Theorem client_amp_agrees (i : invocation) (w w' : world) :
  runTests i w = Ret tt w' ->
  exists k a names,
    w_karma w' = Some k
    /\ amp (client k) = Some a
    /\ readdir_ads i = Some names
    /\ adTypes a = getAdTypes names
    /\ (useCompiledJs a = true <-> w_serve_mode w' = Some "compiled")
    /\ (useCompiledJs a = false <-> w_serve_mode w' = Some "default")
    /\ amp_saucelabs a = flag i "saucelabs" || flag i "saucelabs_lite"
    /\ (flag i "verbose" || flag i "v" = true ->
        captureConsole (client k) = JBool true).
Proof.
  intros Hret.
  destruct (runTests_launch_config i w w' Hret)
    as (names & k & Hn & Hk & Hm & _ & _ & _ & _ & Hc & _).
  eexists k, _, names. rewrite Hc, Hm.
  cbn [amp useCompiledJs amp_saucelabs adTypes captureConsole].
  split; [exact Hk |]. split; [reflexivity |]. split; [exact Hn |].
  split; [reflexivity |].
  destruct (flag i "compiled"); repeat split; try discriminate; try done;
    by intros ->.
Qed.

Lemma coverage_preprocessors (c : KarmaConfig) (pattern : string) :
  preprocessors (set_coverage c) !! pattern
  = (if bool_decide (pattern = "src/**/*.js"
                     \/ pattern = "extensions/**/*.js")
     then (fun l => l ++ ["coverage"]) <$> preprocessors c !! pattern
     else preprocessors c !! pattern).
Proof.
  unfold set_coverage. cbn [preprocessors].
  destruct (preprocessors c !! "src/**/*.js") as [l |] eqn:Es;
    rewrite ?lookup_insert_ne by done;
    destruct (preprocessors c !! "extensions/**/*.js") as [l' |] eqn:Ee;
    rewrite ?lookup_insert;
    repeat case_decide; subst;
    case_bool_decide as Hp;
    rewrite ?Es, ?Ee; try reflexivity; try congruence;
    try (exfalso; apply Hp; auto; fail);
    destruct Hp as [-> | ->]; congruence.
Qed.

(** X13. In a run that starts Karma, --coverage adds the coverage
    preprocessor to the patterns 'src/**/*.js' and 'extensions/**/*.js' when
    karma.conf has them, creates no pattern and changes no other one;
    without --coverage the preprocessors are those of karma.conf. *)
Theorem coverage_keeps_patterns (i : invocation) (w w' : world) :
  runTests i w = Ret tt w' ->
  exists k,
    w_karma w' = Some k
    /\ dom (preprocessors k) = dom (preprocessors karmaDefault)
    /\ (forall pattern,
          preprocessors k !! pattern
          = (if flag i "coverage"
                && bool_decide (pattern = "src/**/*.js"
                                \/ pattern = "extensions/**/*.js")
             then (fun l => l ++ ["coverage"])
                    <$> preprocessors karmaDefault !! pattern
             else preprocessors karmaDefault !! pattern)).
Proof.
  intros Hret.
  destruct (runTests_launch_config i w w' Hret)
    as (names & k & _ & Hk & _ & _ & _ & _ & _ & _ & Hp & _).
  exists k. split; [exact Hk |].
  assert (L : forall pattern,
             preprocessors k !! pattern
             = (if flag i "coverage"
                   && bool_decide (pattern = "src/**/*.js"
                                   \/ pattern = "extensions/**/*.js")
                then (fun l => l ++ ["coverage"])
                       <$> preprocessors karmaDefault !! pattern
                else preprocessors karmaDefault !! pattern)).
  { intros pattern. rewrite Hp.
    destruct (flag i "coverage"); [apply coverage_preprocessors | done]. }
  split; [| exact L].
  apply set_eq. intros pattern. rewrite !elem_of_dom, L.
  destruct (flag i "coverage"
            && bool_decide (pattern = "src/**/*.js"
                            \/ pattern = "extensions/**/*.js"));
    [by rewrite fmap_is_Some | done].
Qed.

(** X14. A run that starts Karma with --saucelabs is in integration mode,
    leaves chai-as-promised out, and runs the integration suite, or, when
    --files is given as well, the common files and the files named, of
    whatever kind; the smoke test ends the list. *)
Theorem full_lab_files (i : invocation) (w w' : world) :
  runTests i w = Ret tt w' ->
  flag i "saucelabs" = true ->
  flag i "integration" = true
  /\ exists k,
       w_karma w' = Some k
       /\ files k
          = (if flag i "files"
             then commonTestPaths config ++ concat_arg (prop (argv i) "files")
             else integrationTestPaths config)
            ++ concat_arg (simpleTestPath config).
Proof.
  intros Hret Hs.
  destruct (runTests_launch_config i w w' Hret)
    as (names & k & _ & Hk & _ & Hf & _ & _ & _ & _ & _ & Hi).
  specialize (Hi Hs). split; [exact Hi |]. exists k. split; [exact Hk |].
  rewrite Hf. unfold final_files, base_files, smoke_files, selection_mode.
  rewrite Hs, Hi. cbn [orb app].
  by destruct (flag i "files").
Qed.

(* ===================================================================== *)
(** ** Shuffling keeps the tests; Karma's callback; the [test] task *)
(* ===================================================================== *)

(** X15. If the shuffle only reorders (as shuffle-seed does), then in the
    randomized/glob/a4a branch with the init file among the globbed files,
    the file list is the base, the common files, the tests and the smoke
    test, where the tests together with the init file are a rearrangement
    of the globbed files: no test is lost and none is run twice. *)
Theorem shuffle_keeps_every_test
        (i : invocation) (c : KarmaConfig) (w : world) :
  (forall xs seed, Permutation (shuffle xs seed) xs) ->
  selection_mode i = Randomized ->
  In init_tests (globbed i) ->
  exists c' tests,
    selectFiles i c w = Ret c' (add_log (seed_log i) w)
    /\ files c' = base_files i
                  ++ (commonTestPaths config ++ (JStr <$> tests))
                  ++ smoke_files i
    /\ Permutation (init_tests :: tests) (globbed i).
Proof.
  intros Hperm Hmode Hin.
  assert (Hord : Permutation (ordering i) (globbed i)).
  { unfold ordering. destruct (flag i "randomize" || flag i "a4a"); [| done].
    apply Hperm. }
  assert (Hin' : In init_tests (ordering i)).
  { apply (Permutation_in _ (Permutation_sym Hord)), Hin. }
  destruct (indexOf_present _ _ Hin') as (before & after & E & _ & Hidx).
  destruct (selectFiles_spec i c w) as (c' & Hsel & Hf & _).
  exists c', (before ++ after). split; [exact Hsel |]. split.
  - rewrite Hf. unfold final_files. rewrite Hmode. unfold mode_files.
    rewrite Hidx. rewrite E at 1. by rewrite splice1_at.
  - rewrite <- Hord, E. apply Permutation_middle.
Qed.

(** X16. Whatever exit code Karma reports, its callback logs the shutdown
    of the server and ends the process, through [process.exit()] on the next
    tick for the code 0 and through [process.exit(exitCode)] otherwise.  The
    status of the process is the code modulo 256: the code itself for a code
    from 0 to 255 (a failure reported as 256 ends with the status 0).  The
    disk is not touched. *)
Theorem karmaDone_status (exitCode : Z) (w : world) :
  exists code w',
    karmaDone exitCode w = Exit code w'
    /\ code = (if (exitCode =? 0)%Z then None else Some exitCode)
    /\ exit_status code = (exitCode mod 256)%Z
    /\ ((0 <= exitCode < 256)%Z -> exit_status code = exitCode)
    /\ w_disk w' = w_disk w
    /\ In (Log [ (Yellow, [Lit "Shutting down test responses server on localhost:31862"]) ])
          (w_log w').
Proof.
  unfold karmaDone. run_unfold.
  destruct (Z.eqb_spec exitCode 0) as [-> | Hne].
  - eexists None, _. repeat split.
    cbn [w_log]. apply in_or_app. right. by left.
  - eexists (Some exitCode), _. repeat split.
    + intros Hrange.
      change (exit_status (Some exitCode)) with (exitCode mod 256)%Z.
      rewrite Z.mod_small by lia. reflexivity.
    + cbn [w_log]. apply in_or_app. left. apply in_or_app. right. by left.
Qed.

Lemma runTests_disk (i : invocation) (w : world) :
  w_disk (res_world (runTests i w)) = w_disk w.
Proof.
  pose proof (runTests_outcome i w) as Ho.
  destruct (getConfig i (add_log (ampsauce_note i) w)) as [c0 w1 | |];
    [| contradiction | by rewrite Ho].
  destruct (flag i "saucelabs" && negb (flag i "integration"));
    [by rewrite Ho |].
  destruct (readdir_ads i) as [names |].
  - by destruct Ho as (k & -> & _).
  - by destruct Ho as (m & ->).
Qed.

Lemma help_step (i : invocation) (keys : list string) (w : world) :
  when (negb (flag i "nohelp")) (printArgvMessages i keys) w
  = Ret tt (add_log (if flag i "nohelp" then [] else help_lines i keys) w).
Proof.
  destruct (flag i "nohelp"); simpl.
  - by rewrite add_log_nil.
  - apply printArgvMessages_add_log.
Qed.

Lemma applyAmpConfig_absent (i : invocation) (target : string) (w : world) :
  w_disk w !! target = None -> applyAmpConfig i target w = Ret tt w.
Proof.
  intros Hnone. unfold applyAmpConfig, existsSync, bind, ret.
  rewrite Hnone. by rewrite bool_decide_eq_false_2 by (by intros [? ?]).
Qed.

(** X17. When neither dist/amp.js nor dist/v0.js is on the disk, the
    [test] task patches nothing: it is [runTests], after the help lines
    unless --nohelp is given, and in every outcome the disk is as it
    was. *)
Theorem testTask_missing_targets (i : invocation) (keys : list string) (w : world) :
  w_disk w !! "dist/amp.js" = None ->
  w_disk w !! "dist/v0.js" = None ->
  testTask i keys w
  = runTests i (add_log (if flag i "nohelp" then []
                         else help_lines i keys) w)
  /\ w_disk (res_world (testTask i keys w)) = w_disk w.
Proof.
  intros Ha Hv.
  assert (E : testTask i keys w
              = runTests i (add_log (if flag i "nohelp" then []
                                     else help_lines i keys) w)).
  { unfold testTask. unfold bind at 1. rewrite help_step.
    unfold bind at 1. rewrite applyAmpConfig_absent by exact Ha.
    unfold bind at 1. by rewrite applyAmpConfig_absent by exact Hv. }
  split; [exact E |]. rewrite E. by rewrite runTests_disk.
Qed.

(** X18. When dist/amp.js exists and [removeConfig] fails on it, the [test]
    task fails with that error in the world [removeConfig] left: the config
    is not applied, dist/v0.js is not patched and [runTests] is not
    called. *)
Theorem testTask_patch_failure
        (i : invocation) (keys : list string) (w w1 : world) (m : string) :
  is_Some (w_disk w !! "dist/amp.js") ->
  removeConfig "dist/amp.js"
               (add_log (if flag i "nohelp" then []
                         else help_lines i keys) w)
  = Thrown m w1 ->
  testTask i keys w = Thrown m w1.
Proof.
  intros Hsome Hfail.
  unfold testTask. unfold bind at 1. rewrite help_step.
  unfold bind at 1. unfold applyAmpConfig at 1. unfold bind at 1.
  unfold existsSync. cbn [w_disk add_log].
  rewrite bool_decide_eq_true_2 by exact Hsome.
  unfold bind at 1. by rewrite Hfail.
Qed.

End Task.

(* ===================================================================== *)
(** ** Properties of getAdTypes *)
(* ===================================================================== *)

Lemma scan_contributions (files : list string) (acc : list jsval) :
  scan files acc = acc ++ flat_map contribution files.
Proof.
  revert acc. induction files as [| file rest IH]; intros acc; simpl.
  - by rewrite app_nil_r.
  - unfold contribution at 1.
    destruct (scanned file); rewrite IH; [by rewrite app_assoc | done].
Qed.

(** X3. The list starts with the two built-in types; every directory entry
    then adds its contribution, in the order of the listing. *)
Lemma getAdTypes_contributions (files : list string) :
  getAdTypes files
  = [JStr "adsense"; JStr "doubleclick"] ++ flat_map contribution files.
Proof. unfold getAdTypes. apply scan_contributions. Qed.

(** A base name that is not a property of [Object.prototype] contributes
    what the exception table says: its entry, or the name itself. *)
Lemma pushed_table (adType : string) :
  Object_prototype !! adType = None ->
  pushed adType = JStr <$> table_types adType.
Proof.
  intros Hnone. unfold pushed, lookup_exception, table_types.
  destruct (namingExceptions !! adType); [reflexivity |].
  by rewrite Hnone.
Qed.

(** X2. For a listing in which no scanned file is named after a property of
    [Object.prototype], the result is the two built-in types followed, for
    each scanned file in order, by the file's entry in the exception table
    or else its base name. *)
Lemma getAdTypes_table (files : list string) :
  Forall (fun file => scanned file = true ->
                      Object_prototype !! Path.basename file ".js" = None)
         files ->
  getAdTypes files
  = [JStr "adsense"; JStr "doubleclick"]
    ++ flat_map (fun file =>
                   if scanned file
                   then JStr <$> table_types (Path.basename file ".js")
                   else []) files.
Proof.
  intros Hall. unfold getAdTypes. rewrite scan_contributions. f_equal.
  induction Hall as [| file rest Hfile _ IH]; [reflexivity |].
  simpl. rewrite IH. f_equal. unfold contribution.
  destruct (scanned file); [| reflexivity].
  by rewrite pushed_table by (by apply Hfile).
Qed.

(** C4. [getAdTypes] starts with 'adsense' and 'doubleclick', and
    adblade.js yields 'adblade' and 'industrybrains'.  A file
    constructor.js is scanned too, has no entry in the exception table, and
    yet does not yield its base name: [namingExceptions['constructor']]
    is the inherited function [Object], so one [undefined] is pushed. *)
Theorem getAdTypes_inherited_name :
  getAdTypes ["adblade.js"; "constructor.js"]
  = [JStr "adsense"; JStr "doubleclick";
     JStr "adblade"; JStr "industrybrains"; JUndefined]
  /\ scanned "constructor.js" = true
  /\ Path.basename "constructor.js" ".js" = "constructor"
  /\ namingExceptions !! "constructor" = None
  /\ ~ In (JStr "constructor") (getAdTypes ["adblade.js"; "constructor.js"]).
Proof.
  assert (E : getAdTypes ["adblade.js"; "constructor.js"]
              = [JStr "adsense"; JStr "doubleclick";
                 JStr "adblade"; JStr "industrybrains"; JUndefined])
    by (vm_compute; reflexivity).
  split; [exact E |]. repeat split; try (vm_compute; reflexivity).
  rewrite E. intros H.
  repeat (destruct H as [H | H]; [discriminate |]). exact H.
Qed.

(* ===================================================================== *)
(** ** Concrete runs *)
(* ===================================================================== *)

(** Two runs of [gulp test --randomize --seed=0] over the same three
    files, whose [Math.random()] draws are 0.25 and 0.375.  shuffle-seed
    orders the files as test-a, test-b, init for the seed 0.25 and as
    test-b, test-a, init for the seed 0.375: the two runs print
    --seed=0.25 and --seed=0.375 and start Karma with different lists. *)
Lemma seed_zero_runs_differ_witness :
  globbed Sample.config (Sample.seed0 0.25)
  = globbed Sample.config (Sample.seed0 0.375)
  /\ seed_used (Sample.seed0 0.25) = JNum 0.25
  /\ seed_used (Sample.seed0 0.375) = JNum 0.375
  /\ exists w1 w2 k1 k2,
       runTests Sample.karma Sample.config Sample.shuffle_seed
                (Sample.seed0 0.25) Sample.world0 = Ret tt w1
       /\ runTests Sample.karma Sample.config Sample.shuffle_seed
                   (Sample.seed0 0.375) Sample.world0 = Ret tt w2
       /\ w_karma w1 = Some k1 /\ w_karma w2 = Some k2
       /\ files k1 <> files k2
       /\ In (rerun_hint (JNum 0.25)) (w_log w1)
       /\ In (rerun_hint (JNum 0.375)) (w_log w2).
Proof.
  apply (seed_zero_runs_differ Sample.karma Sample.config Sample.shuffle_seed
           (Sample.seed0 0.25) (Sample.seed0 0.375)
           Sample.world0 Sample.world0);
    try reflexivity.
  - vm_compute. eexists. reflexivity.
  - vm_compute. eexists. reflexivity.
  - vm_compute. discriminate.
Defined.

(** The file lists of these two runs: test-a.js before test-b.js with the
    draw 0.25, test-b.js before test-a.js with the draw 0.375. *)
Lemma seed_zero_sample_orders :
  files <$> w_karma (res_world (runTests Sample.karma Sample.config
                                         Sample.shuffle_seed
                                         (Sample.seed0 0.25) Sample.world0))
  = Some [JStr "test/chai-as-promised/chai-as-promised.js";
          JStr "test/_init_tests.js";
          JObj [("pattern", JStr "test/fixtures/*.html");
                ("included", JBool false)];
          JStr "test/functional/test-a.js"; JStr "test/functional/test-b.js"]
  /\ files <$> w_karma (res_world (runTests Sample.karma Sample.config
                                            Sample.shuffle_seed
                                            (Sample.seed0 0.375)
                                            Sample.world0))
     = Some [JStr "test/chai-as-promised/chai-as-promised.js";
             JStr "test/_init_tests.js";
             JObj [("pattern", JStr "test/fixtures/*.html");
                   ("included", JBool false)];
             JStr "test/functional/test-b.js";
             JStr "test/functional/test-a.js"].
Proof. split; vm_compute; reflexivity. Qed.

(** [gulp test --firefox --saucelabs] without credentials: the browser
    override decides; nothing is thrown and the reporters stay the default
    ones. *)
Lemma getConfig_precedence_witness :
  exists c,
    getConfig Sample.karma Sample.firefox_lab Sample.world0
    = Ret c Sample.world0
    /\ browsers c = ["Firefox"]
    /\ reporters c = reporters Sample.karma
    /\ files c = files Sample.karma
    /\ client c = client Sample.karma.
Proof.
  apply (getConfig_precedence Sample.karma Sample.firefox_lab Sample.world0).
  reflexivity.
Defined.

(** [gulp test --saucelabs_lite] with SAUCE_ACCESS_KEY unset. *)
Lemma getConfig_missing_credentials_witness :
  exists var,
    (var = "SAUCE_USERNAME" \/ var = "SAUCE_ACCESS_KEY")
    /\ env_set (env Sample.lite_no_key) var = false
    /\ getConfig Sample.karma Sample.lite_no_key Sample.world0
       = Thrown ("Missing " +:+ var +:+ " Env variable") Sample.world0
    /\ exists w',
         runTests Sample.karma Sample.config Sample.shuffle
                  Sample.lite_no_key Sample.world0
         = Thrown ("Missing " +:+ var +:+ " Env variable") w'
         /\ w_karma w' = w_karma Sample.world0.
Proof.
  apply (getConfig_missing_credentials Sample.karma Sample.config
           Sample.shuffle Sample.lite_no_key Sample.world0);
    [reflexivity | reflexivity | reflexivity | reflexivity | reflexivity |].
  right. reflexivity.
Defined.

(** [gulp test --saucelabs_lite --unit]: the smoke test ends the list. *)
Lemma smoke_test_appended_witness :
  exists c' w',
    selectFiles Sample.config Sample.shuffle Sample.lite_unit Sample.karma
                Sample.world0 = Ret c' w'
    /\ files c' = [JStr "test/chai-as-promised/chai-as-promised.js";
                   JStr "test/functional/test-error.js"]
                  ++ [JStr "test/simple-test.js"].
Proof.
  apply (smoke_test_appended Sample.karma Sample.config Sample.shuffle
           Sample.lite_unit Sample.karma Sample.world0).
  reflexivity.
Defined.

(** [gulp test --glob] in a checkout without the init file: of the two
    globbed tests, test-a.js stays and test-b.js, the last one, is dropped
    from Karma's file list. *)
Lemma missing_init_drops_last_file_witness :
  indexOf (ordering Sample.config Sample.shuffle Sample.glob_no_init)
          init_tests = (-1)%Z
  /\ ordering Sample.config Sample.shuffle Sample.glob_no_init
     = ["test/functional/test-a.js"] ++ ["test/functional/test-b.js"]
  /\ splice1 (ordering Sample.config Sample.shuffle Sample.glob_no_init)
             (indexOf (ordering Sample.config Sample.shuffle
                                Sample.glob_no_init) init_tests)
     = ["test/functional/test-a.js"]
  /\ exists c',
       selectFiles Sample.config Sample.shuffle Sample.glob_no_init
                   Sample.karma Sample.world0
       = Ret c' Sample.world0
       /\ files c'
          = [JStr "test/chai-as-promised/chai-as-promised.js";
             JStr "test/_init_tests.js";
             JObj [("pattern", JStr "test/fixtures/*.html");
                   ("included", JBool false)];
             JStr "test/functional/test-a.js"].
Proof.
  destruct (missing_init_drops_last_file Sample.config Sample.shuffle
              Sample.glob_no_init Sample.karma Sample.world0)
    as (Hidx & Hsp & Hsel & Hlast & _);
    [reflexivity | reflexivity | reflexivity | reflexivity | |].
  - vm_compute. intros H.
    repeat (destruct H as [H | H]; [discriminate |]). exact H.
  - split; [exact Hidx |]. split; [reflexivity |].
    split; [exact Hsp |]. exact Hsel.
Defined.

(** C9 as worded fails for [gulp test --glob] when the globs match no
    file: the init file is not in the empty list, the splice at -1 removes
    nothing, and no file is dropped from Karma's file list. *)
Lemma missing_init_nothing_to_drop :
  selection_mode Sample.glob_nothing = Randomized
  /\ ordering Sample.config Sample.shuffle Sample.glob_nothing = []
  /\ ~ In init_tests (ordering Sample.config Sample.shuffle Sample.glob_nothing)
  /\ indexOf (ordering Sample.config Sample.shuffle Sample.glob_nothing)
             init_tests = (-1)%Z
  /\ splice1 (ordering Sample.config Sample.shuffle Sample.glob_nothing)
             (indexOf (ordering Sample.config Sample.shuffle
                                Sample.glob_nothing) init_tests)
     = ordering Sample.config Sample.shuffle Sample.glob_nothing
  /\ ~ (exists dropped,
          ordering Sample.config Sample.shuffle Sample.glob_nothing
          = splice1 (ordering Sample.config Sample.shuffle Sample.glob_nothing)
                    (indexOf (ordering Sample.config Sample.shuffle
                                       Sample.glob_nothing) init_tests)
            ++ [dropped])
  /\ exists c',
       selectFiles Sample.config Sample.shuffle Sample.glob_nothing
                   Sample.karma Sample.world0
       = Ret c' Sample.world0
       /\ files c'
          = [JStr "test/chai-as-promised/chai-as-promised.js";
             JStr "test/_init_tests.js";
             JObj [("pattern", JStr "test/fixtures/*.html");
                   ("included", JBool false)]].
Proof.
  repeat (split; [reflexivity |]).
  split; [intros [] |]. repeat (split; [reflexivity |]).
  split.
  - intros [dropped E]. discriminate E.
  - eexists. split; reflexivity.
Qed.

(** [gulp test --a4a --seed=7]: the a4a globs do not match the init file.
    shuffle-seed swaps the two a4a tests for the seed 7, so test-a4a.js is
    the one dropped. *)
Lemma a4a_seed7_drops_a_test :
  ordering Sample.config Sample.shuffle_seed Sample.a4a_seed7
  = ["extensions/amp-a4a/0.1/test/test-signature.js";
     "extensions/amp-a4a/0.1/test/test-a4a.js"]
  /\ splice1 (ordering Sample.config Sample.shuffle_seed Sample.a4a_seed7)
             (indexOf (ordering Sample.config Sample.shuffle_seed
                                Sample.a4a_seed7) init_tests)
     = ["extensions/amp-a4a/0.1/test/test-signature.js"].
Proof. split; vm_compute; reflexivity. Qed.

(** [gulp test --randomize --seed=0] with the draw 0.25. *)
Lemma seed_zero_is_discarded_witness :
  seed_used (Sample.seed0 0.25) = JNum (math_random (Sample.seed0 0.25)).
Proof.
  apply (seed_zero_is_discarded Sample.config Sample.shuffle
           (Sample.seed0 0.25) Sample.world0);
    reflexivity.
Defined.

(** [gulp test --saucelabs --unit] with credentials: the run prints the
    refusal and calls [process.exit()]; the status of that exit is 0. *)
Lemma lab_without_integration_exit_witness :
  exists w',
    runTests Sample.karma Sample.config Sample.shuffle Sample.lab_unit
             Sample.world0 = Exit None w'
    /\ w_log w' = w_log Sample.world0 ++ ampsauce_note Sample.lab_unit
                                      ++ lab_refusal
    /\ w_karma w' = w_karma Sample.world0
    /\ w_server w' = w_server Sample.world0
    /\ exit_status None = 0%Z.
Proof.
  exact (lab_without_integration_exit Sample.karma Sample.config
           Sample.shuffle Sample.lab_unit Sample.world0 eq_refl eq_refl).
Defined.

(** [gulp test --config=canary] on [Sample.world0]: dist/amp.js is not on
    the disk and nothing happens; dist/v0.js is, and gets the canary
    config from canary-config.json. *)
Lemma applyAmpConfig_target_witness :
  applyAmpConfig Sample.removeConfig Sample.applyConfig Sample.canary
                 "dist/amp.js" Sample.world0
  = Ret tt Sample.world0
  /\ applyAmpConfig Sample.removeConfig Sample.applyConfig Sample.canary
                    "dist/v0.js" Sample.world0
     = Ret tt (mkWorld
                 []
                 {[ "dist/v0.js" :=
                      "canary from build-system/global-configs/canary-config.json;runtime" ]}
                 None false None).
Proof.
  split.
  - apply (applyAmpConfig_target Sample.removeConfig Sample.applyConfig
             Sample.canary "dist/amp.js" Sample.world0).
    reflexivity.
  - rewrite (proj1 (proj2 (applyAmpConfig_target
                             Sample.removeConfig Sample.applyConfig
                             Sample.canary "dist/v0.js" Sample.world0))).
    + vm_compute. reflexivity.
    + vm_compute. eexists. reflexivity.
    + reflexivity.
Defined.

(** Two runs of [gulp test --randomize --seed=7] with different draws of
    [Math.random()] order the files identically. *)
Lemma truthy_seed_reproducible_witness :
  ordering Sample.config Sample.shuffle (Sample.seed7 0.25)
  = ordering Sample.config Sample.shuffle (Sample.seed7 0.75).
Proof.
  apply (truthy_seed_reproducible Sample.config Sample.shuffle
           (Sample.seed7 0.25) (Sample.seed7 0.75)
           Sample.world0 Sample.world0);
    reflexivity.
Defined.

(** The listing of [Sample.ads]: a private file, the externs and a
    non-script are skipped, adblade and weborama are expanded. *)
Lemma getAdTypes_table_witness :
  getAdTypes Sample.ads
  = [JStr "adsense"; JStr "doubleclick"; JStr "a9"; JStr "adblade";
     JStr "industrybrains"; JStr "weborama-display"].
Proof.
  rewrite (getAdTypes_table Sample.ads).
  - vm_compute. reflexivity.
  - repeat constructor; intros _; vm_compute; reflexivity.
Defined.

(** [gulp test --randomize --seed=7]: the init file is among the globbed
    files and is the one file taken out. *)
Lemma splice_init_present_witness :
  exists before after,
    ordering Sample.config Sample.shuffle (Sample.seed7 0.25)
    = before ++ init_tests :: after
    /\ ~ In init_tests before
    /\ splice1 (ordering Sample.config Sample.shuffle (Sample.seed7 0.25))
               (indexOf (ordering Sample.config Sample.shuffle
                                  (Sample.seed7 0.25)) init_tests)
       = before ++ after.
Proof.
  apply (splice_init_present
           (ordering Sample.config Sample.shuffle (Sample.seed7 0.25))).
  vm_compute. left. reflexivity.
Defined.



(* ===================================================================== *)
(** ** Without --randomize and --a4a nothing is random *)
(* ===================================================================== *)

(** X19. Without --randomize and --a4a the selection of files prints
    nothing and does not depend on --seed, on [Math.random()], on the
    environment or on the shuffle: two runs that agree on the other flags
    and on the files the globs match select the same files, in the same
    order. *)
Theorem selection_ignores_randomness
        (config : Config)
        (shuffle1 shuffle2 : list string -> jsval -> list string)
        (i1 i2 : invocation) (c : KarmaConfig) (w : world) :
  (forall k, k <> "seed" -> prop (argv i1) k = prop (argv i2) k) ->
  glob_sync i1 = glob_sync i2 ->
  flag i1 "randomize" = false ->
  flag i1 "a4a" = false ->
  selectFiles config shuffle1 i1 c w = selectFiles config shuffle2 i2 c w
  /\ exists c', selectFiles config shuffle1 i1 c w = Ret c' w.
Proof.
  intros Hargv Hglob Hr Ha.
  assert (Hflag : forall k, k <> "seed" -> flag i2 k = flag i1 k).
  { intros k Hk. unfold flag. by rewrite (Hargv k Hk). }
  split.
  - unfold selectFiles, ordered, globbed.
    rewrite !Hflag by discriminate.
    rewrite <- (Hargv "files") by discriminate.
    rewrite <- Hglob, Hr, Ha. reflexivity.
  - destruct (selectFiles_spec config shuffle1 i1 c w) as (c' & Hsel & _).
    exists c'. rewrite Hsel. f_equal.
    unfold seed_log. rewrite Hr, Ha.
    destruct (selection_mode i1); apply add_log_nil.
Qed.

(* ===================================================================== *)
(** ** Which directory entries are scanned *)
(* ===================================================================== *)

Lemma from_last_dot_js (name : string) :
  Path.from_last_dot (name +:+ ".js") = Some ".js".
Proof.
  induction name as [| ch rest IH]; [reflexivity |].
  simpl. by rewrite IH.
Qed.

Lemma from_last_dot_suffix (s e : string) :
  Path.from_last_dot s = Some e -> exists p, s = p +:+ e.
Proof.
  revert e. induction s as [| ch rest IH]; intros e; simpl; [discriminate |].
  destruct (Path.from_last_dot rest) as [e' |].
  - intros [= <-]. destruct (IH e' eq_refl) as [p ->].
    by exists (String ch p).
  - destruct (Ascii.eqb ch "."); [| discriminate].
    intros [= <-]. by exists "".
Qed.

Lemma js_name_not_bare (name : string) :
  name <> "" -> name +:+ ".js" <> ".js" /\ name +:+ ".js" <> "..".
Proof.
  intros Hne. destruct name as [| c1 [| c2 [| c3 r]]]; [done | | |];
    split; simpl; intros [= ]; subst; try discriminate.
  all: destruct r; discriminate.
Qed.

Lemma strip_suffix_js (name : string) :
  Path.strip_suffix ".js" (name +:+ ".js") = Some name.
Proof.
  induction name as [| ch rest IH]; [reflexivity |].
  destruct (js_name_not_bare (String ch rest)) as [Hb _]; [done |].
  apply String.eqb_neq in Hb.
  change (Path.strip_suffix ".js" (String ch rest +:+ ".js"))
    with (if String.eqb (String ch rest +:+ ".js") ".js" then Some ""
          else String ch <$> Path.strip_suffix ".js" (rest +:+ ".js")).
  by rewrite Hb, IH.
Qed.

(** X20. A directory entry is scanned exactly when it is [name.js] for a
    non-empty [name] that does not start with an underscore, and is not
    ads.extern.js.  The base name of such an entry is [name], and unless
    [name] is a property of [Object.prototype] the entry contributes what
    the exception table says for [name]: its types, or [name] itself. *)
Theorem scanned_js_name (file : string) :
  (scanned file = true <->
   exists name,
     file = name +:+ ".js" /\ name <> ""
     /\ Path.first_char name <> Some "_"%char
     /\ file <> "ads.extern.js")
  /\ (forall name,
        file = name +:+ ".js" -> Path.basename file ".js" = name)
  /\ (forall name,
        file = name +:+ ".js" -> scanned file = true ->
        Object_prototype !! name = None ->
        contribution file = JStr <$> table_types name).
Proof.
  assert (Hbase : forall name,
             Path.basename (name +:+ ".js") ".js" = name).
  { intros name. unfold Path.basename.
    change (String.eqb ".js" "") with false. cbv iota.
    destruct (String.eqb_spec ".js" (name +:+ ".js")) as [E | _].
    - destruct name as [| ch rest]; [reflexivity |].
      destruct (js_name_not_bare (String ch rest)) as [Hb _]; [done |].
      by rewrite <- E in Hb.
    - by rewrite strip_suffix_js. }
  split; [| split].
  - unfold scanned. split.
    + intros Hs.
      apply andb_prop in Hs as [Hs Hext]. apply andb_prop in Hs as [He Hund].
      apply String.eqb_eq in He. unfold Path.extname in He.
      destruct (Path.from_last_dot file) as [e |] eqn:El; [| discriminate].
      destruct (String.eqb e file || String.eqb file "..") eqn:Eb;
        [discriminate |].
      subst e. apply orb_false_elim in Eb as [Eb _].
      destruct (from_last_dot_suffix _ _ El) as [name ->].
      exists name. split; [reflexivity |].
      assert (Hne : name <> "").
      { intros ->. simpl in Eb. discriminate. }
      split; [exact Hne |]. split.
      * apply negb_true_iff, bool_decide_eq_false in Hund.
        destruct name; [done | exact Hund].
      * apply negb_true_iff, String.eqb_neq in Hext. exact Hext.
    + intros (name & -> & Hne & Hund & Hext).
      unfold Path.extname. rewrite from_last_dot_js.
      destruct (js_name_not_bare name Hne) as [Hb Hd].
      apply not_eq_sym, String.eqb_neq in Hb. apply String.eqb_neq in Hd.
      rewrite Hb, Hd. simpl orb. cbv iota.
      apply andb_true_intro. split; [apply andb_true_intro; split |].
      * reflexivity.
      * apply negb_true_iff, bool_decide_eq_false.
        destruct name; [done | exact Hund].
      * by apply negb_true_iff, String.eqb_neq.
  - intros name ->. apply Hbase.
  - intros name -> Hs Hp. unfold contribution. rewrite Hs, Hbase.
    by apply pushed_table.
Qed.

(* ===================================================================== *)
(** ** Further concrete runs *)
(* ===================================================================== *)

(** [gulp test --randomize --seed=0] off Travis: the help lines announce
    seed 0. *)
Lemma seed_zero_announced_witness :
  exists w',
    printArgvMessages Sample.cyan_str Sample.inherited_str
                      (Sample.seed0 0.25) Sample.seed0_keys Sample.world0
    = Ret tt w'
    /\ In (flag_entry Sample.inherited_str "seed"
             (OwnMessage "Randomizing test order with seed <number>."))
          (w_log w').
Proof.
  apply (seed_zero_announced Sample.config Sample.shuffle Sample.cyan_str
           Sample.inherited_str (Sample.seed0 0.25) Sample.seed0_keys
           Sample.world0).
  - reflexivity.
  - vm_compute. right. right. left. reflexivity.
  - reflexivity.
  - reflexivity.
Defined.

(** The full lab in integration mode with an explicit file, --testnames,
    --coverage, --grep and --compiled: the reporters. *)
Lemma karma_reporters_precedence_witness :
  exists k,
    w_karma (res_world (runTests Sample.karma Sample.config Sample.shuffle
                                 Sample.lab_files Sample.world0)) = Some k
    /\ browsers k = saucelabs_browsers
    /\ reporters k = ["mocha"; "progress"; "coverage"].
Proof.
  destruct (karma_reporters_precedence Sample.karma Sample.config
              Sample.shuffle Sample.lab_files Sample.world0
              (res_world (runTests Sample.karma Sample.config Sample.shuffle
                                   Sample.lab_files Sample.world0)))
    as (k & Hk & Hb & Hr & _).
  - vm_compute. reflexivity.
  - exists k. split; [exact Hk |]. split; [rewrite Hb | rewrite Hr];
      reflexivity.
Defined.

(** The same run: the mocha options hold grep only, the timeout of
    karma.conf is still passed to the page. *)
Lemma grep_replaces_mocha_options_witness :
  exists k a,
    w_karma (res_world (runTests Sample.karma Sample.config Sample.shuffle
                                 Sample.lab_files Sample.world0)) = Some k
    /\ amp (client k) = Some a
    /\ mochaTimeout a = JNum 10000%float
    /\ mocha (client k) !! "timeout" = None.
Proof.
  destruct (grep_replaces_mocha_options Sample.karma Sample.config
              Sample.shuffle Sample.lab_files Sample.world0
              (res_world (runTests Sample.karma Sample.config Sample.shuffle
                                   Sample.lab_files Sample.world0)))
    as (k & a & Hk & Ha & Ht & Hg & _).
  - vm_compute. reflexivity.
  - exists k, a. split; [exact Hk |]. split; [exact Ha |].
    split; [rewrite Ht; reflexivity |]. apply Hg. reflexivity.
Defined.

(** The same run: compiled code is served and the page is told so. *)
Lemma client_amp_agrees_witness :
  exists k a,
    w_karma (res_world (runTests Sample.karma Sample.config Sample.shuffle
                                 Sample.lab_files Sample.world0)) = Some k
    /\ amp (client k) = Some a
    /\ (useCompiledJs a = true <->
        w_serve_mode (res_world (runTests Sample.karma Sample.config
                                          Sample.shuffle Sample.lab_files
                                          Sample.world0))
        = Some "compiled")
    /\ amp_saucelabs a = true.
Proof.
  destruct (client_amp_agrees Sample.karma Sample.config
              Sample.shuffle Sample.lab_files Sample.world0
              (res_world (runTests Sample.karma Sample.config Sample.shuffle
                                   Sample.lab_files Sample.world0)))
    as (k & a & names & Hk & Ha & _ & _ & Hc & _ & Hl & _).
  - vm_compute. reflexivity.
  - exists k, a. split; [exact Hk |]. split; [exact Ha |].
    split; [exact Hc | rewrite Hl; reflexivity].
Defined.

(** The same run: coverage is added to the one pattern karma.conf has. *)
Lemma coverage_keeps_patterns_witness :
  exists k,
    w_karma (res_world (runTests Sample.karma Sample.config Sample.shuffle
                                 Sample.lab_files Sample.world0)) = Some k
    /\ dom (preprocessors k) = dom (preprocessors Sample.karma)
    /\ preprocessors k !! "src/**/*.js" = Some ["browserify"; "coverage"]
    /\ preprocessors k !! "extensions/**/*.js" = None.
Proof.
  destruct (coverage_keeps_patterns Sample.karma Sample.config
              Sample.shuffle Sample.lab_files Sample.world0
              (res_world (runTests Sample.karma Sample.config Sample.shuffle
                                   Sample.lab_files Sample.world0)))
    as (k & Hk & Hd & Hp).
  - vm_compute. reflexivity.
  - exists k. split; [exact Hk |]. split; [exact Hd |].
    split; rewrite Hp; reflexivity.
Defined.

(** The same run: a functional test is run on the full lab. *)
Lemma full_lab_files_witness :
  exists k,
    w_karma (res_world (runTests Sample.karma Sample.config Sample.shuffle
                                 Sample.lab_files Sample.world0)) = Some k
    /\ files k
       = [JStr "test/_init_tests.js";
          JObj [("pattern", JStr "test/fixtures/*.html");
                ("included", JBool false)];
          JStr "test/functional/test-a.js"; JStr "test/simple-test.js"].
Proof.
  destruct (full_lab_files Sample.karma Sample.config
              Sample.shuffle Sample.lab_files Sample.world0
              (res_world (runTests Sample.karma Sample.config Sample.shuffle
                                   Sample.lab_files Sample.world0)))
    as (_ & k & Hk & Hf).
  - vm_compute. reflexivity.
  - reflexivity.
  - exists k. split; [exact Hk | rewrite Hf; reflexivity].
Defined.

Lemma sample_shuffle_permutes (xs : list string) (seed : jsval) :
  Permutation (Sample.shuffle xs seed) xs.
Proof.
  destruct seed; try reflexivity. simpl.
  destruct (PrimFloat.ltb x 0.5); [| reflexivity].
  symmetry. apply Permutation_rev.
Defined.

(** [gulp test --randomize --seed=7]: the two functional tests and the init
    file are the three globbed files. *)
Lemma shuffle_keeps_every_test_witness :
  exists c' tests,
    selectFiles Sample.config Sample.shuffle (Sample.seed7 0.25)
                Sample.karma Sample.world0
    = Ret c' (add_log (seed_log (Sample.seed7 0.25)) Sample.world0)
    /\ files c'
       = base_files Sample.config (Sample.seed7 0.25)
         ++ (commonTestPaths Sample.config ++ (JStr <$> tests))
         ++ smoke_files Sample.config (Sample.seed7 0.25)
    /\ Permutation (init_tests :: tests)
                   (globbed Sample.config (Sample.seed7 0.25)).
Proof.
  apply (shuffle_keeps_every_test Sample.config Sample.shuffle
           (Sample.seed7 0.25) Sample.karma Sample.world0).
  - exact sample_shuffle_permutes.
  - reflexivity.
  - vm_compute. left. reflexivity.
Defined.

(** [gulp test --nohelp --unit] in a checkout without runtime files: the
    task is [runTests] and the disk stays empty. *)
Lemma testTask_missing_targets_witness :
  testTask Sample.karma Sample.config Sample.shuffle Sample.removeConfig
           Sample.applyConfig Sample.cyan_str Sample.inherited_str
           Sample.quiet_unit ["_"; "nohelp"; "unit"] Sample.world_clean
  = runTests Sample.karma Sample.config Sample.shuffle Sample.quiet_unit
             (add_log [] Sample.world_clean)
  /\ w_disk (res_world
               (testTask Sample.karma Sample.config Sample.shuffle
                         Sample.removeConfig Sample.applyConfig
                         Sample.cyan_str Sample.inherited_str
                         Sample.quiet_unit ["_"; "nohelp"; "unit"]
                         Sample.world_clean))
     = ∅.
Proof.
  apply (testTask_missing_targets Sample.karma Sample.config Sample.shuffle
           Sample.removeConfig Sample.applyConfig Sample.cyan_str
           Sample.inherited_str Sample.quiet_unit ["_"; "nohelp"; "unit"]
           Sample.world_clean);
    reflexivity.
Defined.

(** After a build, with a [removeConfig] that rejects: the task fails
    before anything is patched. *)
Lemma testTask_patch_failure_witness :
  testTask Sample.karma Sample.config Sample.shuffle
           Sample.removeConfig_fails Sample.applyConfig Sample.cyan_str
           Sample.inherited_str Sample.quiet_unit ["_"; "nohelp"; "unit"]
           Sample.world_built
  = Thrown "cannot read dist/amp.js" (add_log [] Sample.world_built).
Proof.
  apply (testTask_patch_failure Sample.karma Sample.config Sample.shuffle
           Sample.removeConfig_fails Sample.applyConfig Sample.cyan_str
           Sample.inherited_str Sample.quiet_unit ["_"; "nohelp"; "unit"]
           Sample.world_built).
  - vm_compute. eexists. reflexivity.
  - reflexivity.
Defined.

(** [gulp test --glob --seed=3] and [gulp test --glob], with different
    draws and different shuffles, select the same files. *)
Lemma selection_ignores_randomness_witness :
  selectFiles Sample.config Sample.shuffle (Sample.glob_only 0.25)
              Sample.karma Sample.world0
  = selectFiles Sample.config (fun xs _ => rev xs) Sample.glob_plain
                Sample.karma Sample.world0.
Proof.
  apply (selection_ignores_randomness Sample.config Sample.shuffle
           (fun xs _ => rev xs) (Sample.glob_only 0.25) Sample.glob_plain
           Sample.karma Sample.world0).
  - intros k Hk. unfold prop, Sample.glob_only, Sample.glob_plain, Sample.run.
    cbn [argv list_to_map foldr uncurry fst snd].
    rewrite !lookup_insert.
    repeat case_decide; subst; try reflexivity; congruence.
  - reflexivity.
  - reflexivity.
  - reflexivity.
Defined.

(** weborama.js is scanned and contributes its table entry. *)
Lemma scanned_js_name_witness :
  scanned "weborama.js" = true
  /\ contribution "weborama.js" = [JStr "weborama-display"].
Proof.
  assert (Hs : scanned "weborama.js" = true).
  { apply (scanned_js_name "weborama.js"). exists "weborama".
    repeat split; discriminate. }
  split; [exact Hs |].
  apply (proj2 (proj2 (scanned_js_name "weborama.js")) "weborama");
    [reflexivity | exact Hs | vm_compute; reflexivity].
Defined.
